(** * higlass-python: the packaging script [setup.py]

    A shallow embedding of [setup.py] and the properties of its
    version reader, its requirements reader, the [NPM] asset-build command
    and the [js_prerelease] command decorator.

    Python [str] values are [string]s; a character stands for one code point
    below 256.  Effectful code is written in a state-and-exception monad
    over a [World] that holds the file system, the process environment, the
    distribution's bookkeeping and a trace of the observable actions. *)

From Stdlib Require Import Ascii.
From Stdlib Require String.
From stdpp Require Import base gmap strings list.

(* ===================================================================== *)
(** ** Python strings *)
(* ===================================================================== *)

Module Str.

Definition newline : ascii := "010"%char.

(** [s.startswith(p)] *)
Fixpoint startswith (p s : string) : bool :=
  match p, s with
  | EmptyString, _ => true
  | String a p', String b s' => Ascii.eqb a b && startswith p' s'
  | String _ _, EmptyString => false
  end.

(** [s.split(sep)] for a one-character separator: the pieces between
    the separators, always at least one piece. *)
Fixpoint split (sep : ascii) (s : string) : list string :=
  match s with
  | EmptyString => [EmptyString]
  | String c s' =>
      if Ascii.eqb c sep then EmptyString :: split sep s'
      else match split sep s' with
           | piece :: pieces => String c piece :: pieces
           | [] => [String c EmptyString]
           end
  end.

(** [sep.join(pieces)] for a one-character separator. *)
Fixpoint join (sep : ascii) (pieces : list string) : string :=
  match pieces with
  | [] => EmptyString
  | [p] => p
  | p :: ps => p +:+ String sep (join sep ps)
  end.

(** [c in s] for a character. *)
Fixpoint has_char (c : ascii) (s : string) : bool :=
  match s with
  | EmptyString => false
  | String a s' => Ascii.eqb a c || has_char c s'
  end.

(** [needle in s] for strings. *)
Fixpoint contains (needle s : string) : bool :=
  startswith needle s ||
  match s with
  | EmptyString => false
  | String _ s' => contains needle s'
  end.

(** every character of [s] satisfies [p] *)
Fixpoint all_chars (p : ascii -> bool) (s : string) : bool :=
  match s with
  | EmptyString => true
  | String a s' => p a && all_chars p s'
  end.

End Str.

(* ===================================================================== *)
(** ** Exceptions and results *)
(* ===================================================================== *)

Inductive ExnClass :=
| ValueError
| AttributeError
| FileNotFoundError
| OSError
| CalledProcessError
| KeyboardInterrupt
| SystemExit.

(** [issubclass(c, Exception)]: [KeyboardInterrupt] and [SystemExit] derive
    from [BaseException] only. *)
Definition is_Exception (c : ExnClass) : bool :=
  match c with
  | KeyboardInterrupt | SystemExit => false
  | _ => true
  end.

(** An exception object: its class and [str(e)]. *)
Record exn := Exn { exn_class : ExnClass; exn_str : string }.

Inductive outcome (A : Type) :=
| Return (a : A)
| Raise (e : exn).
Arguments Return {A} a.
Arguments Raise {A} e.

(* ===================================================================== *)
(** ** The regular expressions used by [get_version] *)
(* ===================================================================== *)

Module Re.

(** The fragment of Python's [re] syntax that the script uses: literal
    characters, character classes, greedy repetition of a class, the
    start-of-line anchor of [re.MULTILINE] and one capturing group. *)
Inductive item :=
| Bol
| Chr (c : ascii)
| Cls (p : ascii -> bool)
| Star (p : ascii -> bool)
| Open
| Close.

(** [\s] on [str] patterns: the code points for which [str.isspace]
    holds, here those below 256. *)
Definition is_space (c : ascii) : bool :=
  let n := nat_of_ascii c in
  ((9 <=? n) && (n <=? 13)) || ((28 <=? n) && (n <=? 32))
  || (n =? 133) || (n =? 160).

(** [^] under [re.MULTILINE]: at the start of the text or just after a
    newline; [prev] is the character before the current position. *)
Definition at_bol (prev : option ascii) : bool :=
  match prev with
  | None => true
  | Some c => Ascii.eqb c Str.newline
  end.

Definition record (rec : bool) (acc : string) (c : ascii) : string :=
  if rec then acc +:+ String c EmptyString else acc.

(** Greedy repetition with backtracking: take one more character when
    possible and the rest of the pattern then matches, else stop here. *)
Fixpoint star (p : ascii -> bool)
    (k : option ascii -> string -> string -> option string)
    (rec : bool) (prev : option ascii) (acc : string) (s : string)
    : option string :=
  match s with
  | String c s' =>
      if p c then
        match star p k rec (Some c) (record rec acc c) s' with
        | Some g => Some g
        | None => k prev acc s
        end
      else k prev acc s
  | EmptyString => k prev acc s
  end.

(** Match the items at the current position; the result is group 1.
    [rec] tells whether the position is inside the group and [acc] is the
    text captured so far. *)
Fixpoint match_here (items : list item) (rec : bool)
    (prev : option ascii) (acc : string) (s : string) : option string :=
  match items with
  | [] => Some acc
  | Bol :: rest =>
      if at_bol prev then match_here rest rec prev acc s else None
  | Chr c :: rest =>
      match s with
      | String a s' =>
          if Ascii.eqb a c
          then match_here rest rec (Some a) (record rec acc a) s'
          else None
      | EmptyString => None
      end
  | Cls p :: rest =>
      match s with
      | String a s' =>
          if p a
          then match_here rest rec (Some a) (record rec acc a) s'
          else None
      | EmptyString => None
      end
  | Star p :: rest =>
      star p (match_here rest rec) rec prev acc s
  | Open :: rest => match_here rest true prev EmptyString s
  | Close :: rest => match_here rest false prev acc s
  end.

(** [re.search]: the first position, from the left, where the pattern
    matches; the end of the text is a position too. *)
Fixpoint search_from (items : list item) (prev : option ascii)
    (s : string) : option string :=
  match match_here items false prev EmptyString s with
  | Some g => Some g
  | None =>
      match s with
      | EmptyString => None
      | String c s' => search_from items (Some c) s'
      end
  end.

Definition search (items : list item) (s : string) : option string :=
  search_from items None s.

Fixpoint lit (s : string) : list item :=
  match s with
  | EmptyString => []
  | String c s' => Chr c :: lit s'
  end.

End Re.

(* ===================================================================== *)
(** ** [get_version] and [get_requirements] *)
(* ===================================================================== *)

Section Readers.

(** [read]: the decoded text of the file at [HERE] joined with the given
    parts, or the exception that opening or decoding it raises. *)
Variable read : list string -> outcome string.

Definition is_quote (c : ascii) : bool :=
  Ascii.eqb c "'"%char || Ascii.eqb c "034"%char.

(** The pattern of [get_version]: start of line, [__version__], [\s*],
    [=], [\s*], a single or double quote, group 1 capturing a greedy run
    of characters that are neither quote, and a single or double quote. *)
Definition version_re : list Re.item :=
  [Re.Bol] ++ Re.lit "__version__" ++
  [Re.Star Re.is_space; Re.Chr "="%char; Re.Star Re.is_space;
   Re.Cls is_quote;
   Re.Open; Re.Star (fun c => negb (is_quote c)); Re.Close;
   Re.Cls is_quote].

(** [re.search(...)] gives [None] when nothing matches, and [.group] on
    [None] raises [AttributeError]. *)
Definition get_version : outcome string :=
  match read ["higlass"; "_version.py"] with
  | Raise e => Raise e
  | Return text =>
      match Re.search version_re text with
      | Some version => Return version
      | None =>
          Raise (Exn AttributeError
                   "'NoneType' object has no attribute 'group'")
      end
  end.

Definition keep_requirement (req : string) : bool :=
  negb (String.eqb req "") && negb (Str.startswith "#" req).

Definition get_requirements (path : string) : outcome (list string) :=
  match read [path] with
  | Raise e => Raise e
  | Return content =>
      Return (filter (fun req => keep_requirement req = true)
                     (Str.split Str.newline content))
  end.

End Readers.

(* ===================================================================== *)
(** ** The world the commands act on *)
(* ===================================================================== *)

(** One [check_call]: the argument vector and the [cwd] and [env] keyword
    arguments ([None] when the keyword is not given, and the child then
    inherits the parent's). *)
Record Call := MkCall {
  call_argv : list string;
  call_cwd : option string;
  call_env : option (gmap string string);
}.

Inductive Level := DEBUG | INFO | WARN | ERROR.

(** The argument of a log call.  [Percent fmt xs] is [fmt % xs] for a list
    of strings [xs] and [StrOf e] is [str(e)]. *)
Inductive Text :=
| Plain (s : string)
| Percent (fmt : string) (xs : list string)
| StrOf (e : exn).

Inductive Event :=
| EvLog (lvl : Level) (msg : Text)
| EvSpawn (c : Call)
| EvUtime (path : string)
| EvCommandRun
| EvFinalizeBuildPy.

Record World := MkWorld {
  fs : gset string;              (* the paths for which os.path.exists holds *)
  environ : gmap string string;  (* os.environ *)
  have_run : gset string;        (* distribution.have_run *)
  trace : list Event;            (* what has been done so far, oldest first *)
}.

Definition set_fs (f : gset string) (w : World) : World :=
  MkWorld f (environ w) (have_run w) (trace w).

Definition emit (ev : Event) (w : World) : World :=
  MkWorld (fs w) (environ w) (have_run w) (trace w ++ [ev]).

Definition mark_run (name : string) (w : World) : World :=
  MkWorld (fs w) (environ w) ({[name]} ∪ have_run w) (trace w).

(** What code outside the script does when it is called in a world: the
    file system it leaves and the exception it raises, if any. *)
Definition Effect := World -> gset string * option exn.

(* ===================================================================== *)
(** ** The state-and-exception monad *)
(* ===================================================================== *)

Definition Py (A : Type) := World -> outcome A * World.

Definition ret {A} (a : A) : Py A := fun w => (Return a, w).

Definition raise {A} (e : exn) : Py A := fun w => (Raise e, w).

Definition bind {A B} (m : Py A) (k : A -> Py B) : Py B :=
  fun w =>
    match m w with
    | (Return a, w') => k a w'
    | (Raise e, w') => (Raise e, w')
    end.

Declare Scope py_scope.
Delimit Scope py_scope with py.
Bind Scope py_scope with Py.
Notation "x <- m ;; k" := (bind m (fun x => k))
  (at level 100, m at next level, k at level 200, right associativity)
  : py_scope.
Notation "m ;; k" := (bind m (fun _ => k))
  (at level 100, k at level 200, right associativity) : py_scope.
Local Open Scope py_scope.

(** [try: body / except: handler] catches every exception. *)
Definition try_except {A} (body : Py A) (handler : Py A) : Py A :=
  fun w =>
    match body w with
    | (Return a, w') => (Return a, w')
    | (Raise _, w') => handler w'
    end.

(** [try: body / except Exception as e: handler(e)] lets the exceptions
    that do not derive from [Exception] through. *)
Definition try_except_Exception {A} (body : Py A) (handler : exn -> Py A)
    : Py A :=
  fun w =>
    match body w with
    | (Return a, w') => (Return a, w')
    | (Raise e, w') =>
        if is_Exception (exn_class e) then handler e w' else (Raise e, w')
    end.

(** A call of code outside the script: it is recorded in the trace, then
    has its effect. *)
Definition extern (ev : Event) (eff : Effect) : Py unit :=
  fun w =>
    let w1 := emit ev w in
    match eff w1 with
    | (f, None) => (Return tt, set_fs f w1)
    | (f, Some e) => (Raise e, set_fs f w1)
    end.

Definition log (lvl : Level) (msg : Text) : Py unit :=
  fun w => (Return tt, emit (EvLog lvl msg) w).

Definition os_path_exists (p : string) : Py bool :=
  fun w => (Return (bool_decide (p ∈ fs w)), w).

(** [os.utime(path, None)] needs the path to exist. *)
Definition os_utime (p : string) : Py unit :=
  fun w =>
    if bool_decide (p ∈ fs w) then (Return tt, emit (EvUtime p) w)
    else (Raise (Exn FileNotFoundError
                   ("[Errno 2] No such file or directory: '" +:+ p +:+ "'")),
          w).

(** [all(f(t) for t in ts)] stops at the first [False]. *)
Fixpoint all_ (f : string -> Py bool) (ts : list string) : Py bool :=
  match ts with
  | [] => ret true
  | t :: ts' => b <- f t ;; if b then all_ f ts' else ret false
  end.

(** [[t for t in ts if not f(t)]] *)
Fixpoint list_if_not (f : string -> Py bool) (ts : list string)
    : Py (list string) :=
  match ts with
  | [] => ret []
  | t :: ts' =>
      b <- f t ;;
      rest <- list_if_not f ts' ;;
      ret (if b then rest else t :: rest)
  end.

(** [for t in ts: body(t)] *)
Fixpoint for_ (ts : list string) (body : string -> Py unit) : Py unit :=
  match ts with
  | [] => ret tt
  | t :: ts' => body t ;; for_ ts' body
  end.

(* ===================================================================== *)
(** ** [setup.py] *)
(* ===================================================================== *)

(** What the script takes from the platform it runs on. *)
Record Platform := MkPlatform {
  platform_system : string;                   (* platform.system() *)
  os_path_join : string -> string -> string;  (* os.path.join *)
  os_pathsep : string;                        (* os.pathsep *)
  os_defpath : string;                        (* os.defpath *)
}.

(** The code the script calls and does not define: the child process of a
    [check_call] (the exception is the one [check_call] raises for it:
    [CalledProcessError] for a non-zero exit status, an [OSError] when the
    program cannot be started), the [run] method of the decorated command
    class and [finalize_options] of [build_py]. *)
Record Externals := MkExternals {
  subprocess : Call -> Effect;
  command_run : Effect;
  build_py_finalize_options : Effect;
}.

Section Setup.

Variable P : Platform.
Variable X : Externals.

(** The directory of [setup.py] and the world in which the module is
    imported: the module-level constants are computed there, once. *)
Variable HERE : string.
Variable import_world : World.

Definition IS_REPO : bool :=
  bool_decide (os_path_join P HERE ".git" ∈ fs import_world).
Definition STATIC_DIR : string :=
  os_path_join P (os_path_join P HERE "higlass") "static".
Definition NODE_ROOT : string := os_path_join P HERE "js".
Definition NPM_PATH : string :=
  os_path_join P (os_path_join P NODE_ROOT "node_modules") ".bin"
  +:+ os_pathsep P
  +:+ default (os_defpath P) (environ import_world !! "PATH").

Definition check_call (argv : list string) (cwd : option string)
    (env : option (gmap string string)) : Py unit :=
  let c := MkCall argv cwd env in
  extern (EvSpawn c) (subprocess X c).

Definition os_environ_copy : Py (gmap string string) :=
  fun w => (Return (environ w), w).

(** [distribution.run_command(name)] of distutils, for a command whose
    [run] method is [run]: a command runs once per distribution. *)
Definition run_command (name : string) (run : Py unit) : Py unit :=
  fun w =>
    if bool_decide (name ∈ have_run w) then (Return tt, w)
    else (log INFO (Plain ("running " +:+ name)) ;;
          run ;;
          (fun w' => (Return tt, mark_run name w'))) w.

Definition update_package_data : Py unit :=
  (* build_py = distribution.get_command_obj('build_py') *)
  extern EvFinalizeBuildPy (build_py_finalize_options X).

(** *** class NPM *)

Definition node_modules : string := os_path_join P NODE_ROOT "node_modules".

Definition targets : list string :=
  [ os_path_join P STATIC_DIR "extension.js";
    os_path_join P STATIC_DIR "index.js" ].

Definition get_npm_name : string :=
  let npm_name := "npm" in
  if String.eqb (platform_system P) "Windows" then "npm.cmd" else npm_name.

Definition has_npm : Py bool :=
  let npm_name := get_npm_name in
  try_except
    (check_call [npm_name; "--version"] None None ;; ret true)
    (ret false).

Definition should_run_npm_install : Py bool :=
  node_modules_exists <- os_path_exists node_modules ;;
  has <- has_npm ;;
  ret (has && negb node_modules_exists).

Definition missing_file_message (has_npm_ : bool) (t : string) : string :=
  let msg := "Missing file: " +:+ t in
  if negb has_npm_
  then msg +:+ String Str.newline
                 "npm is required to build a development version "
       (* the next source line, 'of a widget extension', is a statement
          of its own and is not part of the message *)
  else msg.

Definition NPM_run : Py unit :=
  has_npm_ <- has_npm ;;
  (if negb has_npm_
   then log ERROR (Plain
          ("`npm` unavailable.  If you're running this command using "
           +:+ "sudo, make sure `npm` is available to sudo"))
   else ret tt) ;;
  env <- os_environ_copy ;;
  let env := <["PATH" := NPM_PATH]> env in
  let npm_name := get_npm_name in
  install <- should_run_npm_install ;;
  (if install
   then log INFO (Plain
          ("Installing build dependencies with npm.  "
           +:+ "This may take a while...")) ;;
        check_call [npm_name; "install"] (Some NODE_ROOT) None ;;
        os_utime node_modules
   else ret tt) ;;
  check_call [npm_name; "run"; "build"] (Some NODE_ROOT) None ;;
  for_ targets (fun t =>
    there <- os_path_exists t ;;
    if negb there
    then raise (Exn ValueError (missing_file_message has_npm_ t))
    else ret tt) ;;
  (* update package data in case this created new files *)
  update_package_data.

(** *** js_prerelease *)

(** [DecoratedCommand.run] of [js_prerelease(command, strict)]; the
    command class [jsdeps] of the distribution is [NPM]. *)
Definition DecoratedCommand_run (strict : bool) : Py unit :=
  (* jsdeps = self.distribution.get_command_obj('jsdeps') *)
  sdist_ <- (if negb IS_REPO then all_ os_path_exists targets
             else ret false) ;;
  if sdist_ then
    (* sdist, nothing to do *)
    extern EvCommandRun (command_run X)
  else
    try_except_Exception
      (run_command "jsdeps" NPM_run)
      (fun e =>
         missing <- list_if_not os_path_exists targets ;;
         if strict || negb (bool_decide (missing = [])) then
           log WARN (Plain "rebuilding js and css failed") ;;
           (if negb (bool_decide (missing = []))
            then log ERROR (Percent "missing files: %s" missing)
            else ret tt) ;;
           raise e
         else
           log WARN (Plain "rebuilding js and css failed (not a problem)") ;;
           log WARN (StrOf e)) ;;
    extern EvCommandRun (command_run X) ;;
    update_package_data.

End Setup.

(* ===================================================================== *)
(** ** Vocabulary of the statements *)
(* ===================================================================== *)

(** The text whose lines are [ls], each ended by a newline. *)
Fixpoint unlines (ls : list string) : string :=
  match ls with
  | [] => EmptyString
  | l :: ls' => l +:+ String Str.newline (unlines ls')
  end.

(** A line that [get_requirements] is to leave out: a blank one or one
    that begins with the comment marker. *)
Definition excluded (l : string) : Prop :=
  l = EmptyString \/ exists r, l = String "#"%char r.

Definition double_quote : string := String "034"%char EmptyString.

#[local] Instance excluded_dec l : Decision (excluded l).
Proof.
  unfold excluded. destruct l as [|c l].
  - left. now left.
  - destruct (decide (c = "#"%char)) as [->|Hc].
    + left. right. now exists l.
    + right. intros [H | [r H]]; [discriminate | injection H; congruence].
Defined.

(** The character before the position reached after reading [s]. *)
Fixpoint prev_after (prev : option ascii) (s : string) : option ascii :=
  match s with
  | EmptyString => prev
  | String c s' => prev_after (Some c) s'
  end.

Definition starts_with_char (p : ascii -> bool) (s : string) : bool :=
  match s with
  | EmptyString => false
  | String c _ => p c
  end.

(** The events that a run adds to the trace, from the world [w] it starts
    in to the world [w'] it ends in. *)
Definition new_events (w w' : World) : list Event :=
  drop (length (trace w)) (trace w').

(** The environment a child process gets: the [env] keyword argument when
    there is one, else the environment of the parent. *)
Definition child_environ (c : Call) (w : World) : gmap string string :=
  default (environ w) (call_env c).

(** [w'] comes from [w] by actions that all satisfy [Q], and with the same
    process environment. *)
Definition evolves (Q : Event -> Prop) (w w' : World) : Prop :=
  environ w' = environ w /\
  exists evs, trace w' = trace w ++ evs /\ Forall Q evs.

Definition keeps {A} (Q : Event -> Prop) (m : Py A) : Prop :=
  forall w, evolves Q w (m w).2.

(** What the asset build may do: start children that inherit the
    environment, log, touch a path and re-initialise [build_py]; it never
    runs the decorated command. *)
Definition build_action (ev : Event) : Prop :=
  match ev with
  | EvSpawn c => call_env c = None
  | EvCommandRun => False
  | _ => True
  end.

Section Vocabulary.

Variable P : Platform.
Variable X : Externals.
Variable HERE : string.

Definition version_call : Call :=
  MkCall [get_npm_name P; "--version"] None None.
Definition install_call : Call :=
  MkCall [get_npm_name P; "install"] (Some (NODE_ROOT P HERE)) None.
Definition build_call : Call :=
  MkCall [get_npm_name P; "run"; "build"] (Some (NODE_ROOT P HERE)) None.

(** The tool is available, or not, throughout: the version query leaves
    the file system alone and succeeds exactly when [avail] holds. *)
Definition tool_status (avail : bool) : Prop :=
  forall w, exists r,
    subprocess X version_call w = (fs w, r) /\ (r = None <-> avail = true).

(** The tool is not installed: starting it, with whatever arguments,
    fails with [FileNotFoundError] before anything is run. *)
Definition tool_unavailable : Prop :=
  forall c w, head (call_argv c) = Some (get_npm_name P) ->
    exists msg, subprocess X c w = (fs w, Some (Exn FileNotFoundError msg)).

(** The targets that do not exist in a file system, in list order. *)
Definition missing_targets (f : gset string) : list string :=
  filter (fun t => t ∉ f) (targets P HERE).

(** The world in which a propagated failure of the asset build leaves the
    decorated command: an exception that derives from [Exception] is
    caught, logged and raised again, any other passes untouched. *)
Definition after_failed_build (e : exn) (w1 : World) : World :=
  if is_Exception (exn_class e) then
    let w2 := emit (EvLog WARN (Plain "rebuilding js and css failed")) w1 in
    match missing_targets (fs w1) with
    | [] => w2
    | missing => emit (EvLog ERROR (Percent "missing files: %s" missing)) w2
    end
  else w1.

(** [NPM.run] up to and including the build subprocess; the result is
    the local variable [has_npm]. *)
Definition NPM_run_until_built : Py bool :=
  has_npm_ <- has_npm P X ;;
  (if negb has_npm_
   then log ERROR (Plain
          ("`npm` unavailable.  If you're running this command using "
           +:+ "sudo, make sure `npm` is available to sudo"))
   else ret tt) ;;
  install <- should_run_npm_install P X HERE ;;
  (if install
   then log INFO (Plain
          ("Installing build dependencies with npm.  "
           +:+ "This may take a while...")) ;;
        check_call X [get_npm_name P; "install"]
          (Some (NODE_ROOT P HERE)) None ;;
        os_utime (node_modules P HERE)
   else ret tt) ;;
  check_call X [get_npm_name P; "run"; "build"]
    (Some (NODE_ROOT P HERE)) None ;;
  ret has_npm_.

End Vocabulary.

(** *** A POSIX machine and some behaviours of the tool *)

Module Posix.

Fixpoint ends_with_slash (s : string) : bool :=
  match s with
  | EmptyString => false
  | String c EmptyString => Ascii.eqb c "/"%char
  | String _ s' => ends_with_slash s'
  end.

(** [posixpath.join(a, b)] *)
Definition join (a b : string) : string :=
  if Str.startswith "/" b then b
  else if String.eqb a "" || ends_with_slash a then a +:+ b
  else a +:+ "/" +:+ b.

Definition platform : Platform :=
  MkPlatform "Linux" join ":" "/bin:/usr/bin".

Definition quiet : Effect := fun w => (fs w, None).

(** No [npm] on the search path. *)
Definition npm_not_found : Call -> Effect :=
  fun _ w =>
    (fs w, Some (Exn FileNotFoundError
                   "[Errno 2] No such file or directory: 'npm'")).

(** [npm] works: it answers the version query, [install] creates the
    given paths and [run build] creates the given outputs. *)
Definition npm_works (installed outputs : gset string) : Call -> Effect :=
  fun c w =>
    match call_argv c with
    | [_; "install"] => (installed ∪ fs w, None)
    | [_; "run"; "build"] => (outputs ∪ fs w, None)
    | _ => (fs w, None)
    end.

(** [npm] is there and [npm install] exits with status 1. *)
Definition npm_install_fails : Call -> Effect :=
  fun c w =>
    match call_argv c with
    | [_; "install"] =>
        (fs w, Some (Exn CalledProcessError
           "Command '['npm', 'install']' returned non-zero exit status 1."))
    | _ => (fs w, None)
    end.

Definition no_tool : Externals := MkExternals npm_not_found quiet quiet.

(** [npm] installs and builds what it should. *)
Definition working : Externals :=
  MkExternals
    (npm_works {[ "/p/js/node_modules" ]}
               {[ "/p/higlass/static/extension.js";
                  "/p/higlass/static/index.js" ]})
    quiet quiet.

(** [npm] installs, and its build produces no output file. *)
Definition empty_build : Externals :=
  MkExternals (npm_works {[ "/p/js/node_modules" ]} ∅) quiet quiet.

Definition failing_install : Externals :=
  MkExternals npm_install_fails quiet quiet.

Definition checkout : World :=
  MkWorld {[ "/p/.git" ]} {[ "PATH" := "/usr/bin" ]} ∅ [].

Definition built_checkout : World :=
  MkWorld {[ "/p/.git"; "/p/js/node_modules";
             "/p/higlass/static/extension.js";
             "/p/higlass/static/index.js" ]}
          {[ "PATH" := "/usr/bin" ]} ∅ [].

Definition unpacked_sdist : World :=
  MkWorld {[ "/p/higlass/static/extension.js";
             "/p/higlass/static/index.js" ]}
          {[ "PATH" := "/usr/bin" ]} ∅ [].

End Posix.

(** *** Further vocabulary *)

(** A line starts where [pre] ends: [pre] is empty or ends with a
    newline. *)
Definition at_line_start (pre : string) : bool :=
  Re.at_bol (prev_after None pre).

(** The message of the [AttributeError] that [get_version] ends with when
    the pattern matches nowhere. *)
Definition no_group : exn :=
  Exn AttributeError "'NoneType' object has no attribute 'group'".

(** The distribution's bookkeeping and the process environment are the
    same in [w'] as in [w]. *)
Definition same_bookkeeping (w w' : World) : Prop :=
  have_run w' = have_run w /\ environ w' = environ w.

Definition bookkeeps {A} (m : Py A) : Prop :=
  forall w, same_bookkeeping w (m w).2.

Section Actions.

Variable P : Platform.
Variable HERE : string.

(** Everything [NPM.run] can do, at the finest: one of its three
    subprocesses, a log entry, a touch of [node_modules], a
    re-initialisation of [build_py]. *)
Definition npm_action (ev : Event) : Prop :=
  match ev with
  | EvSpawn c =>
      c = version_call P \/ c = install_call P HERE \/ c = build_call P HERE
  | EvUtime p => p = node_modules P HERE
  | EvLog _ _ => True
  | EvFinalizeBuildPy => True
  | EvCommandRun => False
  end.

(** The message [NPM.run] logs when the version query fails. *)
Definition npm_unavailable_message : Text :=
  Plain ("`npm` unavailable.  If you're running this command using "
         +:+ "sudo, make sure `npm` is available to sudo").

End Actions.

(** *** More behaviours of the tool, on the POSIX machine *)

Module Cases.

(** [npm run build] exits with status 2; the rest works. *)
Definition npm_build_fails : Call -> Effect :=
  fun c w =>
    match call_argv c with
    | [_; "run"; "build"] =>
        (fs w, Some (Exn CalledProcessError
           "Command '['npm', 'run', 'build']' returned non-zero exit status 2."))
    | _ => (fs w, None)
    end.

Definition failing_build : Externals :=
  MkExternals npm_build_fails Posix.quiet Posix.quiet.

(** The user interrupts the build with Ctrl-C. *)
Definition npm_build_interrupted : Call -> Effect :=
  fun c w =>
    match call_argv c with
    | [_; "run"; "build"] => (fs w, Some (Exn KeyboardInterrupt ""))
    | _ => (fs w, None)
    end.

Definition interrupted_build : Externals :=
  MkExternals npm_build_interrupted Posix.quiet Posix.quiet.


(** A checkout in which the asset build has been run for this
    distribution, and whose output files have since been removed. *)
Definition cleaned_after_build : World :=
  MkWorld {[ "/p/.git"; "/p/js/node_modules" ]}
          {[ "PATH" := "/usr/bin" ]} {[ "jsdeps" ]} [].

End Cases.

(* ===================================================================== *)
(** ** Strings: splitting and joining *)
(* ===================================================================== *)

#[local] Arguments String.append !_ _ / : simpl nomatch.

Lemma append_assoc (a b c : string) : (a +:+ b) +:+ c = a +:+ (b +:+ c).
Proof. induction a as [|x a IH]; simpl; [reflexivity | f_equal; exact IH]. Qed.

Lemma split_nonempty sep s : Str.split sep s <> [].
Proof.
  destruct s as [|c s]; simpl; [discriminate |].
  destruct (Ascii.eqb c sep); [discriminate |].
  destruct (Str.split sep s); discriminate.
Qed.

Lemma split_app_line sep l s :
  Str.has_char sep l = false ->
  Str.split sep (l +:+ String sep s) = l :: Str.split sep s.
Proof.
  induction l as [|c l IH]; simpl; intros H.
  - now rewrite Ascii.eqb_refl.
  - apply orb_false_iff in H as [Hc Hl].
    rewrite Hc, (IH Hl). reflexivity.
Qed.

Lemma split_one_line sep l :
  Str.has_char sep l = false -> Str.split sep l = [l].
Proof.
  induction l as [|c l IH]; simpl; intros H; [reflexivity |].
  apply orb_false_iff in H as [Hc Hl].
  rewrite Hc, (IH Hl). reflexivity.
Qed.

(** Splitting is the inverse of joining newline-free pieces. *)
Lemma split_join sep (ls : list string) :
  ls <> [] ->
  Forall (fun l => Str.has_char sep l = false) ls ->
  Str.split sep (Str.join sep ls) = ls.
Proof.
  induction ls as [|l ls IH]; intros Hne Hall; [congruence |].
  inversion Hall as [|? ? Hl Hls]; subst.
  destruct ls as [|l' ls].
  - simpl. now apply split_one_line.
  - change (Str.join sep (l :: l' :: ls))
      with (l +:+ String sep (Str.join sep (l' :: ls))).
    rewrite split_app_line by assumption.
    f_equal. apply IH; [discriminate | assumption].
Qed.

Lemma keep_requirement_spec l : keep_requirement l = true <-> ~ excluded l.
Proof.
  unfold excluded. destruct l as [|c l].
  - split; [discriminate | intros H; exfalso; apply H; now left].
  - assert (E : keep_requirement (String c l) = negb (Ascii.eqb "#"%char c)).
    { unfold keep_requirement.
      cbn [String.eqb Str.startswith negb andb]. now rewrite andb_true_r. }
    rewrite E. destruct (Ascii.eqb_spec "#"%char c) as [<-|Hc].
    + split; [discriminate | intros H; exfalso; apply H; right; now exists l].
    + split; [| reflexivity]. intros _ [H | [r H]]; [discriminate |].
      injection H as H _. congruence.
Qed.

(** C7.  For every input text, [get_requirements] returns the
    newline-separated lines of the text without the blank lines and without
    the lines that begin with the comment marker [#], the remaining lines in
    their original order: whenever [lines] are newline-free pieces whose
    join by newlines is the text, the result is [lines] filtered. *)
Theorem get_requirements_filters_lines
    (read : list string -> outcome string) (path content : string)
    (lines : list string) :
  read [path] = Return content ->
  lines <> [] ->
  Forall (fun l => Str.has_char Str.newline l = false) lines ->
  Str.join Str.newline lines = content ->
  get_requirements read path
  = Return (filter (fun l => ~ excluded l) lines).
Proof.
  intros Hread Hne Hnl Hjoin. unfold get_requirements.
  rewrite Hread, <- Hjoin, split_join by assumption.
  f_equal. apply list_filter_iff. intros l. apply keep_requirement_spec.
Qed.

Lemma get_requirements_filters_lines_witness :
  let read := fun _ : list string => Return (Str.join Str.newline
                ["numpy"; ""; "# pinned"; "pandas>=0.23"; ""]) in
  get_requirements read "requirements.txt" = Return ["numpy"; "pandas>=0.23"].
Proof.
  intros read.
  apply (get_requirements_filters_lines read "requirements.txt"
           (Str.join Str.newline ["numpy"; ""; "# pinned"; "pandas>=0.23"; ""])
           ["numpy"; ""; "# pinned"; "pandas>=0.23"; ""]).
  - reflexivity.
  - discriminate.
  - repeat constructor.
  - reflexivity.
Defined.

(* ===================================================================== *)
(** ** The matcher on the version pattern *)
(* ===================================================================== *)

Lemma record_append (rec : bool) acc c s :
  (if rec then Re.record rec acc c +:+ s else Re.record rec acc c)
  = (if rec then acc +:+ String c s else acc).
Proof.
  unfold Re.record. destruct rec; [| reflexivity].
  rewrite append_assoc. reflexivity.
Qed.

(** A greedy repetition reads a whole run of class characters when the text
    after the run does not go on with the class and the rest of the pattern
    matches there. *)
Lemma star_run p k (rec : bool) run : forall prev acc s g,
  Str.all_chars p run = true ->
  starts_with_char p s = false ->
  k (prev_after prev run) (if rec then acc +:+ run else acc) s = Some g ->
  Re.star p k rec prev acc (run +:+ s) = Some g.
Proof.
  induction run as [|c run IH]; intros prev acc s g Hrun Hs Hk.
  - simpl in *. assert (E : (if rec then acc +:+ "" else acc) = acc).
    { destruct rec; [| reflexivity].
      clear. induction acc; simpl; [reflexivity | now f_equal]. }
    rewrite E in Hk. destruct s as [|a s]; simpl; [exact Hk |].
    simpl in Hs. rewrite Hs. exact Hk.
  - simpl in Hrun. apply andb_true_iff in Hrun as [Hc Hrun].
    simpl. rewrite Hc.
    rewrite (IH (Some c) (Re.record rec acc c) s g); try assumption.
    + reflexivity.
    + simpl in Hk. rewrite record_append. exact Hk.
Qed.

(** Literal characters: they match exactly when the text starts with
    them. *)
Lemma match_lit_fails l : forall rest rec prev acc s,
  Str.startswith l s = false ->
  Re.match_here (Re.lit l ++ rest) rec prev acc s = None.
Proof.
  induction l as [|c l IH]; intros rest rec prev acc s H; [discriminate |].
  destruct s as [|a s]; [reflexivity |].
  cbn [Re.lit app Re.match_here]. cbn [Str.startswith] in H.
  rewrite Ascii.eqb_sym. destruct (Ascii.eqb c a); [| reflexivity].
  apply IH. exact H.
Qed.

Lemma match_lit_passes l : forall rest prev acc s,
  Re.match_here (Re.lit l ++ rest) false prev acc (l +:+ s)
  = Re.match_here rest false (prev_after prev l) acc s.
Proof.
  induction l as [|c l IH]; intros rest prev acc s; [reflexivity |].
  cbn [Re.lit app Re.match_here String.append prev_after].
  rewrite Ascii.eqb_refl. apply IH.
Qed.

Lemma space_not_quote c : is_quote c = true -> Re.is_space c = false.
Proof.
  unfold is_quote. intros H. apply orb_true_iff in H as [H | H];
    apply Ascii.eqb_eq in H; subst c; reflexivity.
Qed.

(** The pattern matches an assignment at the start of a line and captures
    the text between the quote characters. *)
Lemma version_re_matches prev ws1 ws2 q1 q2 body rest :
  Re.at_bol prev = true ->
  Str.all_chars Re.is_space ws1 = true ->
  Str.all_chars Re.is_space ws2 = true ->
  is_quote q1 = true -> is_quote q2 = true ->
  Str.all_chars (fun c => negb (is_quote c)) body = true ->
  Re.match_here version_re false prev EmptyString
    ("__version__" +:+ ws1 +:+ "=" +:+ ws2
       +:+ String q1 (body +:+ String q2 rest))
  = Some body.
Proof.
  intros Hbol H1 H2 Hq1 Hq2 Hbody. unfold version_re.
  cbn [app Re.match_here]. rewrite Hbol.
  rewrite match_lit_passes. cbn [Re.match_here].
  apply star_run; [exact H1 | reflexivity |].
  cbn [String.append Re.match_here]. rewrite Ascii.eqb_refl.
  apply star_run; [exact H2 | simpl; now apply space_not_quote |].
  cbn [Re.match_here]. rewrite Hq1. cbn [Re.match_here].
  apply star_run; [exact Hbody | simpl; now rewrite Hq2 |].
  cbn [Re.match_here]. rewrite Hq2. reflexivity.
Qed.

(** A line that does not begin with [__version__] holds no match, and the
    search goes on after its newline. *)
Lemma startswith_line_break v : forall l more,
  Str.has_char Str.newline v = false ->
  Str.startswith v l = false ->
  Str.startswith v (l +:+ String Str.newline more) = false.
Proof.
  induction v as [|a v IH]; intros l more Hv H; [discriminate |].
  cbn [Str.has_char] in Hv. apply orb_false_iff in Hv as [Ha Hv].
  destruct l as [|b l]; cbn [String.append Str.startswith] in *.
  - rewrite Ha. reflexivity.
  - destruct (Ascii.eqb a b); [| reflexivity]. simpl in *. now apply IH.
Qed.

Lemma version_re_needs_bol prev s :
  Re.at_bol prev = false ->
  Re.match_here version_re false prev EmptyString s = None.
Proof.
  intros H. unfold version_re. cbn [app Re.match_here]. now rewrite H.
Qed.

Lemma version_re_needs_name prev s :
  Str.startswith "__version__" s = false ->
  Re.match_here version_re false prev EmptyString s = None.
Proof.
  intros H. unfold version_re. cbn [app Re.match_here].
  destruct (Re.at_bol prev); [| reflexivity].
  now apply match_lit_fails.
Qed.

Lemma search_skips_line l : forall prev more,
  Str.has_char Str.newline l = false ->
  (Re.at_bol prev = true ->
   Str.startswith "__version__" (l +:+ String Str.newline more) = false) ->
  Re.search_from version_re prev (l +:+ String Str.newline more)
  = Re.search_from version_re (Some Str.newline) more.
Proof.
  assert (Hhere : forall prev s,
    (Re.at_bol prev = true -> Str.startswith "__version__" s = false) ->
    Re.match_here version_re false prev EmptyString s = None).
  { intros prev s H. destruct (Re.at_bol prev) eqn:E.
    - apply version_re_needs_name. now apply H.
    - now apply version_re_needs_bol. }
  induction l as [|c l IH]; intros prev more Hl Hstart.
  - cbn [String.append Re.search_from]. now rewrite Hhere.
  - cbn [String.append Re.search_from]. rewrite Hhere by exact Hstart.
    cbn [Str.has_char] in Hl. apply orb_false_iff in Hl as [Hc Hl].
    apply IH; [exact Hl |]. cbn [Re.at_bol]. rewrite Hc. discriminate.
Qed.

Lemma search_skips_lines before : forall prev tail,
  Re.at_bol prev = true ->
  Forall (fun l => Str.has_char Str.newline l = false
                   /\ Str.startswith "__version__" l = false) before ->
  Re.search_from version_re prev (unlines before +:+ tail)
  = Re.search_from version_re
      (match before with [] => prev | _ => Some Str.newline end) tail.
Proof.
  induction before as [|l ls IH]; intros prev tail Hbol Hall; [reflexivity |].
  inversion Hall as [|? ? [Hnl Hname] Hls]; subst.
  cbn [unlines]. rewrite append_assoc. cbn [String.append].
  rewrite search_skips_line; [| exact Hnl |].
  - rewrite IH; [| reflexivity | exact Hls]. now destruct ls.
  - intros _. now apply startswith_line_break.
Qed.

(** C6 (as amended).  When the first line of the version file that begins
    with [__version__] assigns it a quoted string whose text holds no quote
    character of either kind, [get_version] returns exactly the text between
    the quotes, whichever of the two quote characters opens and closes
    it. *)
Theorem get_version_first_assignment
    (read : list string -> outcome string)
    (before : list string) (ws1 ws2 : string) (q1 q2 : ascii)
    (body rest : string) :
  Forall (fun l => Str.has_char Str.newline l = false
                   /\ Str.startswith "__version__" l = false) before ->
  Str.all_chars Re.is_space ws1 = true ->
  Str.all_chars Re.is_space ws2 = true ->
  is_quote q1 = true -> is_quote q2 = true ->
  Str.all_chars (fun c => negb (is_quote c)) body = true ->
  read ["higlass"; "_version.py"]
  = Return (unlines before +:+ "__version__" +:+ ws1 +:+ "=" +:+ ws2
              +:+ String q1 (body +:+ String q2 rest)) ->
  get_version read = Return body.
Proof.
  intros Hbefore H1 H2 Hq1 Hq2 Hbody Hread.
  unfold get_version, Re.search. rewrite Hread.
  rewrite search_skips_lines by (reflexivity || assumption).
  set (prev := match before with [] => None | _ => Some Str.newline end).
  assert (Hbol : Re.at_bol prev = true) by (subst prev; now destruct before).
  pose proof (version_re_matches prev ws1 ws2 q1 q2 body rest
                Hbol H1 H2 Hq1 Hq2 Hbody) as Hm.
  remember ("__version__" +:+ ws1 +:+ "=" +:+ ws2
              +:+ String q1 (body +:+ String q2 rest)) as line eqn:Eline.
  clear Eline. destruct line as [|c line]; cbn [Re.search_from];
    now rewrite Hm.
Qed.

Lemma get_version_first_assignment_witness :
  get_version
    (fun _ => Return
       (unlines ["# the version of the package"; ""]
        +:+ "__version__" +:+ " " +:+ "=" +:+ " "
        +:+ String "034"%char ("0.4.2" +:+ String "034"%char
              (String Str.newline "__author__ = 'x'"))))
  = Return "0.4.2".
Proof.
  apply (get_version_first_assignment _
           ["# the version of the package"; ""] " " " "
           "034"%char "034"%char "0.4.2"
           (String Str.newline "__author__ = 'x'")).
  - repeat constructor.
  - reflexivity.
  - reflexivity.
  - reflexivity.
  - reflexivity.
  - reflexivity.
  - reflexivity.
Defined.

(** C6 as stated fails: a double-quoted string may hold a single quote, and
    the captured text then stops at that quote. *)
Lemma get_version_stops_at_other_quote :
  ~ (forall (read : list string -> outcome string)
            (before : list string) (ws1 ws2 : string) (q : ascii)
            (body rest : string),
       Forall (fun l => Str.has_char Str.newline l = false
                        /\ Str.startswith "__version__" l = false) before ->
       Str.all_chars Re.is_space ws1 = true ->
       Str.all_chars Re.is_space ws2 = true ->
       is_quote q = true ->
       Str.has_char q body = false ->
       read ["higlass"; "_version.py"]
       = Return (unlines before +:+ "__version__" +:+ ws1 +:+ "=" +:+ ws2
                   +:+ String q (body +:+ String q rest)) ->
       get_version read = Return body).
Proof.
  intros H.
  specialize (H (fun _ => Return ("__version__ = " +:+ double_quote
                                    +:+ "it's" +:+ double_quote))
                [] " " " " "034"%char "it's" EmptyString).
  assert (E : get_version
                (fun _ => Return ("__version__ = " +:+ double_quote
                                    +:+ "it's" +:+ double_quote))
              = Return "it") by reflexivity.
  rewrite E in H.
  assert (Hne : Return "it" = Return "it's" -> False) by discriminate.
  apply Hne, H; try reflexivity. constructor.
Qed.

(* ===================================================================== *)
(** ** Traces *)
(* ===================================================================== *)

Lemma new_events_app w w' evs :
  trace w' = trace w ++ evs -> new_events w w' = evs.
Proof. unfold new_events. intros ->. apply drop_app_length. Qed.

Lemma evolves_refl Q w : evolves Q w w.
Proof. split; [reflexivity |]. exists []. now rewrite app_nil_r. Qed.

Lemma evolves_trans Q w1 w2 w3 :
  evolves Q w1 w2 -> evolves Q w2 w3 -> evolves Q w1 w3.
Proof.
  intros [He1 (evs1 & Ht1 & Hq1)] [He2 (evs2 & Ht2 & Hq2)]. split.
  - congruence.
  - exists (evs1 ++ evs2). rewrite Ht2, Ht1, app_assoc.
    split; [reflexivity | now apply Forall_app].
Qed.

Lemma evolves_emit Q ev w : Q ev -> evolves Q w (emit ev w).
Proof.
  intros H. split; [reflexivity |]. exists [ev]. split; [reflexivity |].
  now constructor.
Qed.

Lemma evolves_set_fs Q f w w' : evolves Q w w' -> evolves Q w (set_fs f w').
Proof. intros H. exact H. Qed.

Lemma evolves_mark_run Q name w w' :
  evolves Q w w' -> evolves Q w (mark_run name w').
Proof. intros H. exact H. Qed.

Section Keeps.

Variable Q : Event -> Prop.

Lemma keeps_ret {A} (a : A) : keeps Q (ret a).
Proof. intros w. apply evolves_refl. Qed.

Lemma keeps_raise {A} e : keeps Q (@raise A e).
Proof. intros w. apply evolves_refl. Qed.

Lemma keeps_bind {A B} (m : Py A) (k : A -> Py B) :
  keeps Q m -> (forall a, keeps Q (k a)) -> keeps Q (bind m k).
Proof.
  intros Hm Hk w. unfold bind. specialize (Hm w).
  destruct (m w) as [[a|e] w1]; simpl in *; [| exact Hm].
  eapply evolves_trans; [exact Hm | apply Hk].
Qed.

Lemma keeps_try_except {A} (body handler : Py A) :
  keeps Q body -> keeps Q handler -> keeps Q (try_except body handler).
Proof.
  intros Hb Hh w. unfold try_except. specialize (Hb w).
  destruct (body w) as [[a|e] w1]; simpl in *; [exact Hb |].
  eapply evolves_trans; [exact Hb | apply Hh].
Qed.

Lemma keeps_try_except_Exception {A} (body : Py A) handler :
  keeps Q body -> (forall e, keeps Q (handler e)) ->
  keeps Q (try_except_Exception body handler).
Proof.
  intros Hb Hh w. unfold try_except_Exception. specialize (Hb w).
  destruct (body w) as [[a|e] w1]; simpl in *; [exact Hb |].
  destruct (is_Exception (exn_class e)); [| exact Hb].
  eapply evolves_trans; [exact Hb | apply Hh].
Qed.

Lemma keeps_extern ev eff : Q ev -> keeps Q (extern ev eff).
Proof.
  intros H w. unfold extern.
  destruct (eff (emit ev w)) as [f [e|]]; simpl;
    apply evolves_set_fs, evolves_emit, H.
Qed.

Lemma keeps_log lvl msg : Q (EvLog lvl msg) -> keeps Q (log lvl msg).
Proof. intros H w. now apply evolves_emit. Qed.

Lemma keeps_os_path_exists p : keeps Q (os_path_exists p).
Proof. intros w. apply evolves_refl. Qed.

Lemma keeps_os_utime p : Q (EvUtime p) -> keeps Q (os_utime p).
Proof.
  intros H w. unfold os_utime. case_bool_decide; simpl.
  - now apply evolves_emit.
  - apply evolves_refl.
Qed.

Lemma keeps_for_ ts body :
  (forall t, keeps Q (body t)) -> keeps Q (for_ ts body).
Proof.
  intros H. induction ts as [|t ts IH]; simpl.
  - apply keeps_ret.
  - apply keeps_bind; [apply H | intros _; exact IH].
Qed.

Lemma keeps_if {A} (b : bool) (m1 m2 : Py A) :
  keeps Q m1 -> keeps Q m2 -> keeps Q (if b then m1 else m2).
Proof. now destruct b. Qed.

End Keeps.

Create HintDb keeps.
#[local] Hint Resolve keeps_ret keeps_raise keeps_log keeps_os_path_exists
  keeps_os_utime keeps_extern keeps_if : keeps.

(* ===================================================================== *)
(** ** The asset build: what it does and what it leaves alone *)
(* ===================================================================== *)

Section Build.

Variable P : Platform.
Variable X : Externals.
Variable HERE : string.
Variable import_world : World.

Lemma keeps_check_call argv cwd :
  keeps build_action (check_call X argv cwd None).
Proof. apply keeps_extern. reflexivity. Qed.

Lemma keeps_has_npm : keeps build_action (has_npm P X).
Proof.
  apply keeps_try_except; [| apply keeps_ret].
  apply keeps_bind; [apply keeps_check_call | intros; apply keeps_ret].
Qed.

Lemma keeps_update_package_data : keeps build_action (update_package_data X).
Proof. apply keeps_extern. exact I. Qed.

Lemma keeps_NPM_run : keeps build_action (NPM_run P X HERE import_world).
Proof.
  unfold NPM_run.
  apply keeps_bind; [apply keeps_has_npm | intros h].
  apply keeps_bind; [apply keeps_if; auto with keeps; now apply keeps_log |].
  intros _. apply keeps_bind; [intros w; apply evolves_refl | intros env].
  apply keeps_bind.
  { apply keeps_bind; [apply keeps_os_path_exists | intros b].
    apply keeps_bind; [apply keeps_has_npm | intros; apply keeps_ret]. }
  intros install. apply keeps_bind.
  { apply keeps_if; [| apply keeps_ret].
    apply keeps_bind; [now apply keeps_log | intros _].
    apply keeps_bind; [apply keeps_check_call | intros _].
    now apply keeps_os_utime. }
  intros _. apply keeps_bind; [apply keeps_check_call | intros _].
  apply keeps_bind; [| intros _; apply keeps_update_package_data].
  apply keeps_for_. intros t.
  apply keeps_bind; [apply keeps_os_path_exists | intros b].
  apply keeps_if; [apply keeps_raise | apply keeps_ret].
Qed.

Lemma keeps_run_command name run :
  keeps build_action run -> keeps build_action (run_command name run).
Proof.
  intros H w. unfold run_command. case_bool_decide; [apply evolves_refl |].
  revert w H0.
  assert (K : keeps build_action
    (log INFO (Plain ("running " +:+ name)) ;; run ;;
     (fun w' => (Return tt, mark_run name w')))).
  { apply keeps_bind; [now apply keeps_log | intros _].
    apply keeps_bind; [exact H | intros _].
    intros w. simpl. apply evolves_mark_run, evolves_refl. }
  intros w _. apply K.
Qed.

(** The children of the asset build are started without an [env]
    argument: each of them runs in the environment of the parent, whose
    search path is not the augmented one; the environment of the parent
    is the same after the run as before. *)
Lemma NPM_run_children_inherit_environ (w : World) :
  let w' := (NPM_run P X HERE import_world w).2 in
  environ w' = environ w /\
  Forall (fun ev => match ev with
                    | EvSpawn c =>
                        call_env c = None /\ child_environ c w' = environ w
                    | _ => True
                    end)
         (new_events w w').
Proof.
  destruct (keeps_NPM_run w) as [Henv (evs & Ht & Hq)].
  cbv zeta. split; [exact Henv |].
  rewrite (new_events_app _ _ _ Ht).
  eapply Forall_impl; [exact Hq |]. intros [| c | | |] Hev; try exact I.
  simpl in Hev. unfold child_environ. rewrite Hev. split; [reflexivity |].
  exact Henv.
Qed.

Lemma has_npm_eval (w : World) :
  has_npm P X w
  = match subprocess X (version_call P) (emit (EvSpawn (version_call P)) w) with
    | (f, None) => (Return true, set_fs f (emit (EvSpawn (version_call P)) w))
    | (f, Some _) =>
        (Return false, set_fs f (emit (EvSpawn (version_call P)) w))
    end.
Proof.
  unfold has_npm, try_except, bind, check_call, extern, ret.
  fold (version_call P).
  now destruct (subprocess X (version_call P)
                  (emit (EvSpawn (version_call P)) w)) as [f [e|]].
Qed.

(** C8.  [has_npm] always returns a boolean and never raises: [True]
    when the version query of the tool succeeds, [False] when it raises
    anything at all. *)
Theorem has_npm_returns_bool (w : World) :
  let started := emit (EvSpawn (version_call P)) w in
  let result := subprocess X (version_call P) started in
  has_npm P X w
  = (Return (if result.2 is None then true else false),
     set_fs result.1 started).
Proof.
  cbv zeta. rewrite has_npm_eval.
  now destruct (subprocess X (version_call P)
                  (emit (EvSpawn (version_call P)) w)) as [f [e|]].
Qed.

(** *** The decorated commands *)

Lemma all_exists (ts : list string) (w : World) :
  all_ os_path_exists ts w
  = (Return (bool_decide (Forall (fun t => t ∈ fs w) ts)), w).
Proof.
  induction ts as [|t ts IH]; [reflexivity |].
  cbn [all_]. unfold bind, os_path_exists at 1.
  destruct (decide (t ∈ fs w)) as [Ht | Ht].
  - rewrite (bool_decide_eq_true_2 _ Ht), IH. f_equal. f_equal.
    apply bool_decide_ext. split; [now constructor | now inversion 1].
  - rewrite (bool_decide_eq_false_2 _ Ht). unfold ret. f_equal. f_equal.
    symmetry. apply bool_decide_eq_false. now inversion 1.
Qed.

Lemma list_missing (ts : list string) (w : World) :
  list_if_not os_path_exists ts w
  = (Return (filter (fun t => t ∉ fs w) ts), w).
Proof.
  induction ts as [|t ts IH]; [reflexivity |].
  cbn [list_if_not]. unfold bind, os_path_exists at 1. rewrite IH.
  unfold ret. f_equal. f_equal. rewrite filter_cons.
  destruct (decide (t ∈ fs w)) as [Ht | Ht].
  - rewrite (bool_decide_eq_true_2 _ Ht). now rewrite decide_False by tauto.
  - rewrite (bool_decide_eq_false_2 _ Ht). now rewrite decide_True.
Qed.

Lemma missing_none (f : gset string) :
  missing_targets P HERE f = [] <-> Forall (fun t => t ∈ f) (targets P HERE).
Proof.
  unfold missing_targets. generalize (targets P HERE). intros ts.
  induction ts as [|t ts IH]; [split; [constructor | reflexivity] |].
  rewrite filter_cons. case_decide as Ht.
  - split; [discriminate | inversion 1; tauto].
  - rewrite IH. split.
    + intros H. constructor; [| exact H].
      destruct (decide (t ∈ f)); tauto.
    + now inversion 1.
Qed.

#[local] Abbreviation jsdeps := (run_command "jsdeps" (NPM_run P X HERE import_world)).
#[local] Abbreviation decorated := (DecoratedCommand_run P X HERE import_world).

Lemma decorated_reaches_build strict w :
  IS_REPO P HERE import_world = true \/ missing_targets P HERE (fs w) <> [] ->
  decorated strict w
  = (try_except_Exception jsdeps
      (fun e =>
         missing <- list_if_not os_path_exists (targets P HERE) ;;
         if strict || negb (bool_decide (missing = [])) then
           log WARN (Plain "rebuilding js and css failed") ;;
           (if negb (bool_decide (missing = []))
            then log ERROR (Percent "missing files: %s" missing)
            else ret tt) ;;
           raise e
         else
           log WARN (Plain "rebuilding js and css failed (not a problem)") ;;
           log WARN (StrOf e)) ;;
     extern EvCommandRun (command_run X) ;;
     update_package_data X) w.
Proof.
  intros H. unfold DecoratedCommand_run. unfold bind at 1.
  destruct (IS_REPO P HERE import_world) eqn:Erepo; cbn [negb].
  - reflexivity.
  - rewrite all_exists. destruct H as [H | H]; [discriminate |].
    rewrite bool_decide_eq_false_2; [reflexivity |].
    intros Hall. apply H. now apply missing_none.
Qed.

Lemma decorated_propagates strict w w1 e :
  IS_REPO P HERE import_world = true \/ missing_targets P HERE (fs w) <> [] ->
  jsdeps w = (Raise e, w1) ->
  strict = true \/ missing_targets P HERE (fs w1) <> [] ->
  decorated strict w = (Raise e, after_failed_build P HERE e w1).
Proof.
  intros Hreach Hjs Hprop. rewrite decorated_reaches_build by exact Hreach.
  unfold after_failed_build.
  unfold bind at 1, try_except_Exception. rewrite Hjs.
  destruct (is_Exception (exn_class e)); [| reflexivity].
  unfold bind at 1. rewrite list_missing.
  fold (missing_targets P HERE (fs w1)).
  destruct (missing_targets P HERE (fs w1)) as [|t ts] eqn:Em.
  - destruct Hprop as [-> | Hm]; [| congruence]. reflexivity.
  - rewrite orb_true_r. reflexivity.
Qed.

Lemma evolves_new_events Q w w' :
  evolves Q w w' -> Forall Q (new_events w w').
Proof.
  intros [_ (evs & Ht & Hq)]. now rewrite (new_events_app _ _ _ Ht).
Qed.

Lemma evolves_after_failed_build e w1 :
  evolves build_action w1 (after_failed_build P HERE e w1).
Proof.
  unfold after_failed_build.
  destruct (is_Exception (exn_class e)); [| apply evolves_refl].
  destruct (missing_targets P HERE (fs w1)).
  - now apply evolves_emit.
  - eapply evolves_trans; now apply evolves_emit.
Qed.

(** C1 (as amended).  When the pre-build step of a decorated command
    raises and the strict flag is set or a target file does not exist
    afterwards, the decorated run raises that very exception again.  The
    file system is as the pre-build step left it.  An exception that
    derives from [Exception] is first reported in the log, with the list
    of the missing files when there are any. *)
Theorem decorated_reraises_original (strict : bool) (w w1 : World) (e : exn) :
  IS_REPO P HERE import_world = true \/ missing_targets P HERE (fs w) <> [] ->
  jsdeps w = (Raise e, w1) ->
  strict = true \/ missing_targets P HERE (fs w1) <> [] ->
  exists w2,
    decorated strict w = (Raise e, w2) /\
    fs w2 = fs w1 /\
    (is_Exception (exn_class e) = true ->
     new_events w1 w2
     = EvLog WARN (Plain "rebuilding js and css failed")
       :: match missing_targets P HERE (fs w1) with
          | [] => []
          | missing => [EvLog ERROR (Percent "missing files: %s" missing)]
          end).
Proof.
  intros Hreach Hjs Hprop. exists (after_failed_build P HERE e w1).
  split; [now apply decorated_propagates |].
  unfold after_failed_build. split.
  - destruct (is_Exception (exn_class e)); [| reflexivity].
    now destruct (missing_targets P HERE (fs w1)).
  - intros ->. apply new_events_app.
    destruct (missing_targets P HERE (fs w1)); simpl; [reflexivity |].
    now rewrite <- app_assoc.
Qed.

(** C10.  When the pre-build step of a decorated command raises and the
    error is propagated (the strict flag is set or a target file is
    missing), the run ends with that error and the wrapped command is not
    run in it. *)
Theorem decorated_error_skips_command (strict : bool) (w w1 : World) (e : exn) :
  IS_REPO P HERE import_world = true \/ missing_targets P HERE (fs w) <> [] ->
  jsdeps w = (Raise e, w1) ->
  strict = true \/ missing_targets P HERE (fs w1) <> [] ->
  (decorated strict w).1 = Raise e /\
  EvCommandRun ∉ new_events w (decorated strict w).2.
Proof.
  intros Hreach Hjs Hprop.
  rewrite (decorated_propagates strict w w1 e Hreach Hjs Hprop).
  split; [reflexivity |]. cbn [snd].
  assert (Hev : evolves build_action w (after_failed_build P HERE e w1)).
  { eapply evolves_trans; [| apply evolves_after_failed_build].
    pose proof (keeps_run_command "jsdeps" _ keeps_NPM_run w) as H.
    now rewrite Hjs in H. }
  apply evolves_new_events in Hev. intros Hin.
  rewrite Forall_forall in Hev. exact (Hev _ Hin).
Qed.

(** C9.  Outside a git checkout and with both target files present, a
    decorated command is the wrapped command and nothing else: no asset
    build and no refresh of the package data. *)
Theorem decorated_sdist_delegates (strict : bool) (w : World) :
  IS_REPO P HERE import_world = false ->
  Forall (fun t => t ∈ fs w) (targets P HERE) ->
  decorated strict w = extern EvCommandRun (command_run X) w /\
  new_events w (decorated strict w).2 = [EvCommandRun].
Proof.
  intros Hrepo Hall.
  assert (E : decorated strict w = extern EvCommandRun (command_run X) w).
  { unfold DecoratedCommand_run. unfold bind at 1.
    rewrite Hrepo. cbn [negb]. rewrite all_exists.
    now rewrite bool_decide_eq_true_2. }
  split; [exact E |]. rewrite E. apply new_events_app.
  unfold extern. now destruct (command_run X (emit EvCommandRun w)) as [f [e|]].
Qed.

(** *** Running [NPM.run] step by step *)

Lemma bind_return {A B} (m : Py A) (k : A -> Py B) w a w' :
  m w = (Return a, w') -> bind m k w = k a w'.
Proof. unfold bind. now intros ->. Qed.

Lemma bind_raise {A B} (m : Py A) (k : A -> Py B) w e w' :
  m w = (Raise e, w') -> bind m k w = (Raise e, w').
Proof. unfold bind. now intros ->. Qed.

Lemma bind_assoc {A B C} (m : Py A) (f : A -> Py B) (g : B -> Py C) w :
  bind (bind m f) g w = bind m (fun a => bind (f a) g) w.
Proof. unfold bind. now destruct (m w) as [[a|e] w']. Qed.

Lemma bind_ext {A B} (m : Py A) (k1 k2 : A -> Py B) w :
  (forall a w', k1 a w' = k2 a w') -> bind m k1 w = bind m k2 w.
Proof. intros H. unfold bind. now destruct (m w) as [[a|e] w']. Qed.

(** The loop over the targets stops at the first one that is missing. *)
Lemma verify_targets (h : bool) (ts : list string) (w : World) :
  for_ ts (fun t =>
    there <- os_path_exists t ;;
    if negb there
    then raise (Exn ValueError (missing_file_message h t))
    else ret tt) w
  = match filter (fun t => t ∉ fs w) ts with
    | [] => (Return tt, w)
    | t :: _ => (Raise (Exn ValueError (missing_file_message h t)), w)
    end.
Proof.
  induction ts as [|t ts IH]; [reflexivity |].
  cbn [for_]. rewrite filter_cons. unfold bind at 1 2, os_path_exists at 1.
  destruct (decide (t ∈ fs w)) as [Ht | Ht].
  - rewrite (bool_decide_eq_true_2 _ Ht), decide_False by tauto.
    exact IH.
  - rewrite (bool_decide_eq_false_2 _ Ht), decide_True by exact Ht.
    reflexivity.
Qed.

Lemma NPM_run_split (w : World) :
  NPM_run P X HERE import_world w
  = (has_npm_ <- NPM_run_until_built P X HERE ;;
     for_ (targets P HERE) (fun t =>
       there <- os_path_exists t ;;
       if negb there
       then raise (Exn ValueError (missing_file_message has_npm_ t))
       else ret tt) ;;
     update_package_data X) w.
Proof.
  unfold NPM_run, NPM_run_until_built.
  rewrite bind_assoc. apply bind_ext. intros h w1.
  rewrite bind_assoc. apply bind_ext. intros _ w2.
  unfold bind at 1, os_environ_copy at 1.
  rewrite bind_assoc. apply bind_ext. intros install w3.
  rewrite bind_assoc. apply bind_ext. intros _ w4.
  rewrite bind_assoc. apply bind_ext. intros _ w5.
  reflexivity.
Qed.

Lemma startswith_app (p s : string) : Str.startswith p (p +:+ s) = true.
Proof.
  induction p as [|c p IH]; [reflexivity |].
  cbn [String.append Str.startswith]. now rewrite Ascii.eqb_refl, IH.
Qed.

Lemma startswith_refl (p : string) : Str.startswith p p = true.
Proof.
  induction p as [|c p IH]; [reflexivity |].
  cbn [Str.startswith]. now rewrite Ascii.eqb_refl, IH.
Qed.

Lemma missing_file_message_prefix (h : bool) (t : string) :
  Str.startswith ("Missing file: " +:+ t) (missing_file_message h t) = true.
Proof.
  unfold missing_file_message. destruct h; cbn [negb].
  - apply startswith_refl.
  - apply startswith_app.
Qed.

(** C3 (as amended).  Once the build subprocess has returned, if some
    target file does not exist, [NPM.run] raises [ValueError] in the world
    the build left; the message begins with [Missing file: ] followed by
    the first missing target, in the order of the list of targets, and is
    exactly that when the tool was found. *)
Theorem NPM_run_reports_first_missing
    (w wb : World) (h : bool) (t : string) (others : list string) :
  NPM_run_until_built P X HERE w = (Return h, wb) ->
  missing_targets P HERE (fs wb) = t :: others ->
  NPM_run P X HERE import_world w
  = (Raise (Exn ValueError (missing_file_message h t)), wb) /\
  Str.startswith ("Missing file: " +:+ t) (missing_file_message h t) = true /\
  (h = true -> missing_file_message h t = "Missing file: " +:+ t).
Proof.
  intros Hbuilt Hmiss. split; [| split].
  - rewrite NPM_run_split. rewrite (bind_return _ _ _ _ _ Hbuilt).
    apply bind_raise. rewrite verify_targets.
    fold (missing_targets P HERE (fs wb)). now rewrite Hmiss.
  - apply missing_file_message_prefix.
  - now intros ->.
Qed.

(** *** The tool, available or not, throughout a run *)

Lemma has_npm_status (a : bool) (w : World) :
  tool_status P X a ->
  has_npm P X w = (Return a, emit (EvSpawn (version_call P)) w).
Proof.
  intros Hs. rewrite has_npm_eval.
  destruct (Hs (emit (EvSpawn (version_call P)) w)) as (r & E & Hr).
  rewrite E. destruct r as [e|], a; try reflexivity.
  - destruct Hr as [_ Hr]. now specialize (Hr eq_refl).
  - destruct Hr as [Hr _]. now specialize (Hr eq_refl).
Qed.

Lemma unavailable_status : tool_unavailable P X -> tool_status P X false.
Proof.
  intros Hun w. destruct (Hun (version_call P) w eq_refl) as [msg E].
  eexists. split; [exact E |]. split; discriminate.
Qed.

Lemma check_call_eval argv cwd w :
  check_call X argv cwd None w
  = let c := MkCall argv cwd None in
    match subprocess X c (emit (EvSpawn c) w) with
    | (f, None) => (Return tt, set_fs f (emit (EvSpawn c) w))
    | (f, Some e) => (Raise e, set_fs f (emit (EvSpawn c) w))
    end.
Proof. reflexivity. Qed.

(** The world in which [NPM.run] decides whether to install, and the
    decision. *)
Lemma NPM_run_decides (a : bool) (w : World) {A} (k : bool -> bool -> Py A) :
  tool_status P X a ->
  exists w3 pre,
    trace w3 = trace w ++ pre /\
    fs w3 = fs w /\ have_run w3 = have_run w /\
    Forall (fun ev => ev = EvSpawn (version_call P)
                      \/ exists m, ev = EvLog ERROR m) pre /\
    (h <- has_npm P X ;;
     (if negb h
      then log ERROR (Plain
             ("`npm` unavailable.  If you're running this command using "
              +:+ "sudo, make sure `npm` is available to sudo"))
      else ret tt) ;;
     install <- should_run_npm_install P X HERE ;;
     k h install) w
    = k a (a && negb (bool_decide (node_modules P HERE ∈ fs w))) w3.
Proof.
  intros Hs.
  set (w1 := emit (EvSpawn (version_call P)) w).
  set (w2 := if a then w1
             else emit (EvLog ERROR (Plain
               ("`npm` unavailable.  If you're running this command using "
                +:+ "sudo, make sure `npm` is available to sudo"))) w1).
  exists (emit (EvSpawn (version_call P)) w2).
  exists (new_events w (emit (EvSpawn (version_call P)) w2)).
  assert (Ht : trace (emit (EvSpawn (version_call P)) w2)
               = trace w ++ new_events w (emit (EvSpawn (version_call P)) w2)).
  { subst w2 w1. destruct a; cbn [trace emit];
      rewrite <- ?app_assoc; erewrite new_events_app;
      try reflexivity; cbn [trace emit]; now rewrite <- ?app_assoc. }
  assert (Hfs : fs w2 = fs w) by (subst w2 w1; now destruct a).
  split; [exact Ht |]. split; [exact Hfs |].
  split; [subst w2 w1; now destruct a |]. split.
  - subst w2 w1. destruct a.
    + erewrite new_events_app
        by (cbn [trace emit]; now rewrite <- ?app_assoc).
      repeat constructor.
    + erewrite new_events_app
        by (cbn [trace emit]; now rewrite <- ?app_assoc).
      constructor; [now left |]. constructor; [right; eauto |].
      constructor; [now left | constructor].
  - rewrite (bind_return _ _ _ _ _ (has_npm_status a w Hs)).
    assert (E2 : (if negb a
                  then log ERROR (Plain
                    ("`npm` unavailable.  If you're running this command using "
                     +:+ "sudo, make sure `npm` is available to sudo"))
                  else ret tt) w1 = (Return tt, w2)).
    { subst w2. now destruct a. }
    fold w1. rewrite (bind_return _ _ _ _ _ E2).
    unfold should_run_npm_install.
    rewrite bind_assoc. unfold bind at 1, os_path_exists at 1.
    rewrite bind_assoc.
    rewrite (bind_return _ _ _ _ _ (has_npm_status a w2 Hs)).
    unfold bind at 1, ret at 1. now rewrite Hfs.
Qed.

Lemma keeps_verify_and_refresh (h : bool) :
  keeps (fun ev => ev = EvFinalizeBuildPy)
    (for_ (targets P HERE) (fun t =>
       there <- os_path_exists t ;;
       if negb there
       then raise (Exn ValueError (missing_file_message h t))
       else ret tt) ;;
     update_package_data X).
Proof.
  apply keeps_bind; [| intros _; now apply keeps_extern].
  apply keeps_for_. intros t.
  apply keeps_bind; [apply keeps_os_path_exists | intros b].
  apply keeps_if; [apply keeps_raise | apply keeps_ret].
Qed.

(** The events of one [NPM.run]: the two version queries, then either the
    build alone, or the installation, which may end the run, followed by
    the build. *)
Lemma NPM_run_events (a : bool) (w : World) :
  tool_status P X a ->
  exists pre tail,
    Forall (fun ev => ev = EvSpawn (version_call P)
                      \/ exists m, ev = EvLog ERROR m) pre /\
    Forall (fun ev => ev = EvFinalizeBuildPy) tail /\
    let evs := new_events w (NPM_run P X HERE import_world w).2 in
    if a && negb (bool_decide (node_modules P HERE ∈ fs w)) then
      exists m,
        evs = pre ++ [EvLog INFO m; EvSpawn (install_call P HERE)] \/
        evs = pre ++ [EvLog INFO m; EvSpawn (install_call P HERE);
                      EvUtime (node_modules P HERE);
                      EvSpawn (build_call P HERE)] ++ tail
    else evs = pre ++ EvSpawn (build_call P HERE) :: tail.
Proof.
  intros Hs. rewrite NPM_run_split.
  set (T := fun h : bool =>
    (for_ (targets P HERE) (fun t =>
       there <- os_path_exists t ;;
       if negb there
       then raise (Exn ValueError (missing_file_message h t))
       else ret tt) ;;
     update_package_data X)).
  set (K := fun (h install : bool) =>
    ((if install
      then log INFO (Plain
             ("Installing build dependencies with npm.  "
              +:+ "This may take a while...")) ;;
           check_call X [get_npm_name P; "install"]
             (Some (NODE_ROOT P HERE)) None ;;
           os_utime (node_modules P HERE)
      else ret tt) ;;
     check_call X [get_npm_name P; "run"; "build"]
       (Some (NODE_ROOT P HERE)) None ;;
     ret h)).
  destruct (NPM_run_decides a w K Hs) as (w3 & pre & Ht & Hfs & _ & Hpre & E).
  exists pre.
  assert (Hrun : forall h wb evs,
    trace wb = trace w ++ evs ->
    exists tail, Forall (fun ev => ev = EvFinalizeBuildPy) tail /\
      new_events w (T h wb).2 = evs ++ tail).
  { intros h wb evs Hwb.
    destruct (keeps_verify_and_refresh h wb) as [_ (tail & Htail & Hq)].
    exists tail. split; [exact Hq |]. apply new_events_app.
    fold (T h) in Htail. now rewrite Htail, Hwb, <- app_assoc. }
  cbv zeta.
  match goal with
  | |- context [new_events w ?x] => remember x as wf eqn:Hwf
  end.
  unfold bind at 1 in Hwf.
  change (NPM_run_until_built P X HERE w)
    with ((h <- has_npm P X ;;
     (if negb h
      then log ERROR (Plain
             ("`npm` unavailable.  If you're running this command using "
              +:+ "sudo, make sure `npm` is available to sudo"))
      else ret tt) ;;
     install <- should_run_npm_install P X HERE ;;
     K h install) w) in Hwf.
  rewrite E in Hwf. clear E. revert Hwf.
  destruct (a && negb (bool_decide (node_modules P HERE ∈ fs w)));
    intros Hwf; subst K; unfold bind, log, ret in Hwf;
    cbv beta iota in Hwf;
    rewrite check_call_eval in Hwf; cbv zeta in Hwf.
  - (* the installation runs *)
    fold (install_call P HERE) in Hwf.
    set (wi := emit (EvSpawn (install_call P HERE))
                 (emit (EvLog INFO (Plain
                    ("Installing build dependencies with npm.  "
                     +:+ "This may take a while..."))) w3)) in Hwf.
    assert (Hwi : trace wi = trace w ++ pre ++
              [EvLog INFO (Plain
                 ("Installing build dependencies with npm.  "
                  +:+ "This may take a while..."));
               EvSpawn (install_call P HERE)]).
    { subst wi. cbn [trace emit]. rewrite Ht, <- !app_assoc. reflexivity. }
    destruct (subprocess X (install_call P HERE) wi) as [f [e|]].
    + subst wf. exists []. split; [exact Hpre |]. split; [constructor |].
      eexists. left. apply new_events_app. exact Hwi.
    + unfold os_utime at 1 in Hwf. cbn [fs set_fs] in Hwf.
      destruct (bool_decide (node_modules P HERE ∈ f)).
      * rewrite check_call_eval in Hwf. cbv zeta in Hwf.
        fold (build_call P HERE) in Hwf.
        set (wc := emit (EvSpawn (build_call P HERE))
                     (emit (EvUtime (node_modules P HERE)) (set_fs f wi)))
          in Hwf.
        assert (Hwc : trace wc = trace w ++ pre ++
                  [EvLog INFO (Plain
                     ("Installing build dependencies with npm.  "
                      +:+ "This may take a while..."));
                   EvSpawn (install_call P HERE);
                   EvUtime (node_modules P HERE);
                   EvSpawn (build_call P HERE)]).
        { subst wc. cbn [trace emit set_fs]. rewrite Hwi, <- !app_assoc.
          reflexivity. }
        destruct (subprocess X (build_call P HERE) wc) as [g [e|]].
        -- subst wf. exists []. split; [exact Hpre |].
           split; [constructor |]. eexists. right.
           rewrite app_nil_r. apply new_events_app. exact Hwc.
        -- destruct (Hrun a (set_fs g wc) _ Hwc) as (tail & Hq & Hn).
           subst wf. exists tail. split; [exact Hpre |].
           split; [exact Hq |]. eexists. right.
           rewrite Hn, <- !app_assoc. reflexivity.
      * subst wf. exists []. split; [exact Hpre |]. split; [constructor |].
        eexists. left. apply new_events_app. exact Hwi.
  - (* the installation is skipped *)
    fold (build_call P HERE) in Hwf.
    set (wc := emit (EvSpawn (build_call P HERE)) w3) in Hwf.
    assert (Hwc : trace wc = trace w ++ pre ++ [EvSpawn (build_call P HERE)]).
    { subst wc. cbn [trace emit]. now rewrite Ht, <- app_assoc. }
    destruct (subprocess X (build_call P HERE) wc) as [g [e|]].
    + subst wf. exists []. split; [exact Hpre |]. split; [constructor |].
      apply new_events_app. exact Hwc.
    + destruct (Hrun a (set_fs g wc) _ Hwc) as (tail & Hq & Hn).
      subst wf. exists tail. split; [exact Hpre |]. split; [exact Hq |].
      rewrite Hn, <- app_assoc. reflexivity.
Qed.

Lemma not_in_version_queries (pre : list Event) (ev : Event) :
  Forall (fun ev => ev = EvSpawn (version_call P)
                    \/ exists m, ev = EvLog ERROR m) pre ->
  ev <> EvSpawn (version_call P) ->
  (forall m, ev <> EvLog ERROR m) ->
  ev ∉ pre.
Proof.
  intros Hpre H1 H2 Hin. rewrite Forall_forall in Hpre.
  destruct (Hpre _ Hin) as [-> | [m ->]]; [now apply H1 | now apply (H2 m)].
Qed.

Lemma not_in_refresh (tail : list Event) (ev : Event) :
  Forall (fun ev => ev = EvFinalizeBuildPy) tail ->
  ev <> EvFinalizeBuildPy -> ev ∉ tail.
Proof.
  intros Htail H Hin. rewrite Forall_forall in Htail.
  now apply H, Htail.
Qed.

(** C5 (as amended).  With the tool available or not throughout a run of
    [NPM.run]: the install subprocess is started exactly when the tool is
    available and [node_modules] does not exist, so it is skipped when the
    directory exists; and the build subprocess is started exactly when the
    installation was skipped or went through to the touch of
    [node_modules], whether the tool is available or not. *)
Theorem NPM_run_install_then_build (a : bool) (w : World) :
  tool_status P X a ->
  let evs := new_events w (NPM_run P X HERE import_world w).2 in
  (EvSpawn (install_call P HERE) ∈ evs
   <-> a = true /\ node_modules P HERE ∉ fs w) /\
  (EvSpawn (build_call P HERE) ∈ evs
   <-> (EvSpawn (install_call P HERE) ∈ evs
        -> EvUtime (node_modules P HERE) ∈ evs)).
Proof.
  intros Hs.
  destruct (NPM_run_events a w Hs) as (pre & tail & Hpre & Htail & H).
  cbv zeta in *.
  remember (new_events w (NPM_run P X HERE import_world w).2) as evs
    eqn:Hevs.
  clear Hevs.
  assert (Hi_pre : EvSpawn (install_call P HERE) ∉ pre).
  { apply not_in_version_queries; [exact Hpre | | ]; discriminate. }
  assert (Hb_pre : EvSpawn (build_call P HERE) ∉ pre).
  { apply not_in_version_queries; [exact Hpre | | ]; discriminate. }
  assert (Hu_pre : EvUtime (node_modules P HERE) ∉ pre).
  { apply not_in_version_queries; [exact Hpre | | ]; discriminate. }
  assert (Hi_tail : EvSpawn (install_call P HERE) ∉ tail).
  { apply not_in_refresh; [exact Htail | discriminate]. }
  destruct (a && negb (bool_decide (node_modules P HERE ∈ fs w))) eqn:Ec.
  - apply andb_true_iff in Ec as [-> Hb].
    apply negb_true_iff, bool_decide_eq_false in Hb.
    assert (Hin : EvSpawn (install_call P HERE) ∈ evs).
    { destruct H as [m [-> | ->]]; rewrite !elem_of_app, !elem_of_cons;
        tauto. }
    split; [tauto |].
    destruct H as [m [E | E]]; rewrite E;
      rewrite ?elem_of_app, ?elem_of_cons, ?elem_of_nil.
    + split.
      * intros [? | [? | [? | []]]]; [tauto | discriminate | discriminate].
      * intros Hu. exfalso.
        destruct Hu as [? | [? | [? | []]]];
          [tauto | tauto | discriminate | discriminate].
    + tauto.
  - assert (Hno : EvSpawn (install_call P HERE) ∉ evs).
    { rewrite H, elem_of_app, elem_of_cons. intros [? | [? | ?]];
        [tauto | discriminate | tauto]. }
    split.
    + split; [tauto |]. intros [-> Hn]. cbn [andb] in Ec.
      apply negb_false_iff, bool_decide_eq_true in Ec. tauto.
    + split; [tauto |]. intros _. rewrite H, elem_of_app, elem_of_cons. tauto.
Qed.

(** *** Without the tool *)

Lemma NPM_run_without_tool (w : World) :
  tool_unavailable P X ->
  exists msg w',
    NPM_run P X HERE import_world w
    = (Raise (Exn FileNotFoundError msg), w') /\
    fs w' = fs w /\ have_run w' = have_run w.
Proof.
  intros Hun. rewrite NPM_run_split. unfold bind at 1.
  set (K := fun (h install : bool) =>
    ((if install
      then log INFO (Plain
             ("Installing build dependencies with npm.  "
              +:+ "This may take a while...")) ;;
           check_call X [get_npm_name P; "install"]
             (Some (NODE_ROOT P HERE)) None ;;
           os_utime (node_modules P HERE)
      else ret tt) ;;
     check_call X [get_npm_name P; "run"; "build"]
       (Some (NODE_ROOT P HERE)) None ;;
     ret h)).
  destruct (NPM_run_decides false w K (unavailable_status Hun))
    as (w3 & pre & _ & Hfs & Hhr & _ & E).
  change (NPM_run_until_built P X HERE w)
    with ((h <- has_npm P X ;;
     (if negb h
      then log ERROR (Plain
             ("`npm` unavailable.  If you're running this command using "
              +:+ "sudo, make sure `npm` is available to sudo"))
      else ret tt) ;;
     install <- should_run_npm_install P X HERE ;;
     K h install) w).
  rewrite E. clear E. subst K. cbn [andb]. unfold bind, ret.
  cbv beta iota. rewrite check_call_eval. cbv zeta.
  fold (build_call P HERE).
  destruct (Hun (build_call P HERE)
              (emit (EvSpawn (build_call P HERE)) w3) eq_refl) as [msg Eb].
  rewrite Eb. exists msg. eexists. split; [reflexivity |].
  split; [exact Hfs | exact Hhr].
Qed.

Lemma extern_returns ev (eff : Effect) (w : World) :
  (forall w', (eff w').2 = None) ->
  extern ev eff w = (Return tt, set_fs (eff (emit ev w)).1 (emit ev w)).
Proof.
  intros H. unfold extern. specialize (H (emit ev w)).
  now destruct (eff (emit ev w)) as [f [e|]].
Qed.

Lemma command_then_refresh (w : World) :
  (forall w', (command_run X w').2 = None) ->
  (forall w', (build_py_finalize_options X w').2 = None) ->
  exists w',
    (extern EvCommandRun (command_run X) ;; update_package_data X) w
    = (Return tt, w') /\
    trace w' = trace w ++ [EvCommandRun; EvFinalizeBuildPy].
Proof.
  intros Hcmd Hfin. eexists. split.
  - erewrite bind_return by (now apply extern_returns).
    unfold update_package_data. now apply extern_returns.
  - cbn [trace set_fs emit]. now rewrite <- app_assoc.
Qed.

(** C4.  In a non-strict decorated command, with both target files
    present and the tool not installed, and with a wrapped command and a
    package-data refresh that do not raise themselves: the run returns,
    the wrapped command is run, and when the asset build is attempted (in
    a git checkout, the build not yet run for this distribution) its
    failure is logged as not a problem, together with the error, before
    the wrapped command runs. *)
Theorem decorated_tolerates_missing_tool (w : World) :
  tool_unavailable P X ->
  Forall (fun t => t ∈ fs w) (targets P HERE) ->
  (forall w', (command_run X w').2 = None) ->
  (forall w', (build_py_finalize_options X w').2 = None) ->
  let evs := new_events w (decorated false w).2 in
  (decorated false w).1 = Return tt /\
  EvCommandRun ∈ evs /\
  (IS_REPO P HERE import_world = true -> "jsdeps" ∉ have_run w ->
   exists e before,
     exn_class e = FileNotFoundError /\
     evs = before ++
           [EvLog WARN (Plain "rebuilding js and css failed (not a problem)");
            EvLog WARN (StrOf e);
            EvCommandRun; EvFinalizeBuildPy]).
Proof.
  intros Hun Hall Hcmd Hfin. cbv zeta.
  remember (decorated false w) as R eqn:HR.
  destruct (IS_REPO P HERE import_world) eqn:Erepo.
  - (* in a checkout the asset build is attempted *)
    rewrite decorated_reaches_build in HR by (now left).
    unfold bind at 1 in HR. unfold try_except_Exception, run_command in HR.
    destruct (decide ("jsdeps" ∈ have_run w)) as [Hran | Hran].
    + rewrite (bool_decide_eq_true_2 _ Hran) in HR.
      destruct (command_then_refresh w Hcmd Hfin) as (w' & E & Ht).
      rewrite E in HR. subst R. cbn [fst snd].
      rewrite (new_events_app _ _ _ Ht).
      split; [reflexivity |]. split; [| tauto].
      rewrite elem_of_cons. now left.
    + rewrite (bool_decide_eq_false_2 _ Hran) in HR.
      unfold bind at 1, log at 1 in HR.
      destruct (NPM_run_without_tool
                  (emit (EvLog INFO (Plain ("running " +:+ "jsdeps"))) w) Hun)
        as (msg & w1 & E1 & Hfs & _).
      pose proof (keeps_NPM_run
                    (emit (EvLog INFO (Plain ("running " +:+ "jsdeps"))) w))
        as [_ (evs1 & Ht1 & _)].
      rewrite E1 in Ht1. cbn [snd trace emit] in Ht1.
      rewrite (bind_raise _ _ _ _ _ E1) in HR.
      cbn [is_Exception exn_class] in HR.
      unfold bind at 1 in HR. rewrite list_missing in HR.
      assert (Hnone : filter (fun t => t ∉ fs w1) (targets P HERE) = []).
      { apply missing_none. now rewrite Hfs. }
      rewrite Hnone in HR. cbn [orb negb] in HR.
      rewrite bool_decide_eq_true_2 in HR by reflexivity.
      cbn [negb] in HR. unfold bind at 1, log in HR.
      set (w2 := emit (EvLog WARN (StrOf (Exn FileNotFoundError msg)))
                   (emit (EvLog WARN
                      (Plain "rebuilding js and css failed (not a problem)"))
                      w1)) in HR.
      destruct (command_then_refresh w2 Hcmd Hfin) as (w' & E & Ht).
      rewrite E in HR. subst R. cbn [fst snd].
      assert (Htr : trace w' = trace w ++
                (EvLog INFO (Plain ("running " +:+ "jsdeps")) :: evs1) ++
                [EvLog WARN
                   (Plain "rebuilding js and css failed (not a problem)");
                 EvLog WARN (StrOf (Exn FileNotFoundError msg));
                 EvCommandRun; EvFinalizeBuildPy]).
      { rewrite Ht. subst w2. cbn [trace emit]. rewrite Ht1.
        rewrite <- !app_assoc. reflexivity. }
      rewrite (new_events_app _ _ _ Htr).
      split; [reflexivity |]. split.
      * rewrite elem_of_app, !elem_of_cons. tauto.
      * intros _ _. exists (Exn FileNotFoundError msg). eexists.
        split; reflexivity.
  - (* outside a checkout the targets are there: nothing to build *)
    unfold DecoratedCommand_run in HR. unfold bind at 1 in HR.
    rewrite Erepo in HR. cbn [negb] in HR. rewrite all_exists in HR.
    rewrite bool_decide_eq_true_2 in HR by exact Hall.
    rewrite extern_returns in HR by exact Hcmd. subst R. cbn [fst snd].
    split; [reflexivity |]. split; [| discriminate].
    erewrite new_events_app by (cbn [trace set_fs emit]; reflexivity).
    rewrite elem_of_cons. now left.
Qed.

End Build.

Lemma decorated_reraises_original_witness :
  exists w2,
    DecoratedCommand_run Posix.platform Posix.no_tool "/p" Posix.checkout
      false Posix.checkout
    = (Raise (Exn FileNotFoundError
                "[Errno 2] No such file or directory: 'npm'"), w2) /\
    new_events
      (run_command "jsdeps"
         (NPM_run Posix.platform Posix.no_tool "/p" Posix.checkout)
         Posix.checkout).2 w2
    = [EvLog WARN (Plain "rebuilding js and css failed");
       EvLog ERROR (Percent "missing files: %s"
                      ["/p/higlass/static/extension.js";
                       "/p/higlass/static/index.js"])].
Proof.
  destruct (decorated_reraises_original
              Posix.platform Posix.no_tool "/p" Posix.checkout false
              Posix.checkout
              (run_command "jsdeps"
                 (NPM_run Posix.platform Posix.no_tool "/p" Posix.checkout)
                 Posix.checkout).2
              (Exn FileNotFoundError
                 "[Errno 2] No such file or directory: 'npm'"))
    as (w2 & Hrun & _ & Hlog).
  - left. vm_compute. reflexivity.
  - vm_compute. reflexivity.
  - right. vm_compute. discriminate.
  - exists w2. split; [exact Hrun |]. exact (Hlog eq_refl).
Defined.

Lemma decorated_error_skips_command_witness :
  (DecoratedCommand_run Posix.platform Posix.no_tool "/p" Posix.checkout
     true Posix.checkout).1
  = Raise (Exn FileNotFoundError "[Errno 2] No such file or directory: 'npm'")
  /\ EvCommandRun ∉
     new_events Posix.checkout
       (DecoratedCommand_run Posix.platform Posix.no_tool "/p" Posix.checkout
          true Posix.checkout).2.
Proof.
  apply (decorated_error_skips_command
           Posix.platform Posix.no_tool "/p" Posix.checkout true
           Posix.checkout
           (run_command "jsdeps"
              (NPM_run Posix.platform Posix.no_tool "/p" Posix.checkout)
              Posix.checkout).2).
  - left. vm_compute. reflexivity.
  - vm_compute. reflexivity.
  - left. reflexivity.
Defined.

Lemma decorated_sdist_delegates_witness :
  new_events Posix.unpacked_sdist
    (DecoratedCommand_run Posix.platform Posix.no_tool "/p"
       Posix.unpacked_sdist true Posix.unpacked_sdist).2
  = [EvCommandRun].
Proof.
  apply (decorated_sdist_delegates
           Posix.platform Posix.no_tool "/p" Posix.unpacked_sdist true
           Posix.unpacked_sdist).
  - vm_compute. reflexivity.
  - unfold targets. repeat constructor; vm_compute; reflexivity.
Defined.

Lemma NPM_run_reports_first_missing_witness :
  NPM_run Posix.platform Posix.empty_build "/p" Posix.checkout Posix.checkout
  = (Raise (Exn ValueError "Missing file: /p/higlass/static/extension.js"),
     (NPM_run_until_built Posix.platform Posix.empty_build "/p"
        Posix.checkout).2).
Proof.
  apply (NPM_run_reports_first_missing
           Posix.platform Posix.empty_build "/p" Posix.checkout
           Posix.checkout
           (NPM_run_until_built Posix.platform Posix.empty_build "/p"
              Posix.checkout).2
           true "/p/higlass/static/extension.js"
           ["/p/higlass/static/index.js"]).
  - vm_compute. reflexivity.
  - vm_compute. reflexivity.
Defined.

(** C3 as stated fails: with both targets missing after the build, the
    error names the first of them and not the second. *)
Lemma NPM_run_names_one_missing_file :
  ~ (forall (P : Platform) (X : Externals) (HERE : string)
            (import_world w wb : World) (h : bool) (t : string),
       NPM_run_until_built P X HERE w = (Return h, wb) ->
       t ∈ missing_targets P HERE (fs wb) ->
       exists e w',
         NPM_run P X HERE import_world w = (Raise e, w') /\
         Str.contains t (exn_str e) = true).
Proof.
  intros H.
  destruct (H Posix.platform Posix.empty_build "/p" Posix.checkout
              Posix.checkout
              (NPM_run_until_built Posix.platform Posix.empty_build "/p"
                 Posix.checkout).2
              true "/p/higlass/static/index.js")
    as (e & w' & Hrun & Hnames).
  - vm_compute. reflexivity.
  - assert (E : missing_targets Posix.platform "/p"
                  (fs (NPM_run_until_built Posix.platform Posix.empty_build
                         "/p" Posix.checkout).2)
                = ["/p/higlass/static/extension.js";
                   "/p/higlass/static/index.js"]) by (vm_compute; reflexivity).
    rewrite E, !elem_of_cons. tauto.
  - assert (E : NPM_run Posix.platform Posix.empty_build "/p" Posix.checkout
                  Posix.checkout
                = (Raise (Exn ValueError
                            "Missing file: /p/higlass/static/extension.js"),
                   (NPM_run_until_built Posix.platform Posix.empty_build "/p"
                      Posix.checkout).2)) by (vm_compute; reflexivity).
    rewrite E in Hrun. injection Hrun as <- _.
    vm_compute in Hnames. discriminate.
Qed.

Lemma failing_install_status :
  tool_status Posix.platform Posix.failing_install true.
Proof. intros w. exists None. split; [reflexivity | tauto]. Qed.

Lemma NPM_run_install_then_build_witness :
  let evs := new_events Posix.checkout
               (NPM_run Posix.platform Posix.working "/p" Posix.checkout
                  Posix.checkout).2 in
  (EvSpawn (install_call Posix.platform "/p") ∈ evs
   <-> true = true /\ node_modules Posix.platform "/p" ∉ fs Posix.checkout) /\
  (EvSpawn (build_call Posix.platform "/p") ∈ evs
   <-> (EvSpawn (install_call Posix.platform "/p") ∈ evs
        -> EvUtime (node_modules Posix.platform "/p") ∈ evs)).
Proof.
  apply (NPM_run_install_then_build
           Posix.platform Posix.working "/p" Posix.checkout true
           Posix.checkout).
  intros w. exists None. split; [reflexivity | tauto].
Defined.

(** C5 as stated fails: with the tool available, a failing installation
    ends the run before the build subprocess is started. *)
Lemma NPM_run_build_not_always_run :
  ~ (forall (P : Platform) (X : Externals) (HERE : string)
            (import_world w : World),
       tool_status P X true ->
       EvSpawn (build_call P HERE)
       ∈ new_events w (NPM_run P X HERE import_world w).2).
Proof.
  intros H.
  specialize (H Posix.platform Posix.failing_install "/p" Posix.checkout
                Posix.checkout failing_install_status).
  assert (E : new_events Posix.checkout
                (NPM_run Posix.platform Posix.failing_install "/p"
                   Posix.checkout Posix.checkout).2
              = [EvSpawn (version_call Posix.platform);
                 EvSpawn (version_call Posix.platform);
                 EvLog INFO (Plain
                   ("Installing build dependencies with npm.  "
                    +:+ "This may take a while..."));
                 EvSpawn (install_call Posix.platform "/p")])
    by (vm_compute; reflexivity).
  rewrite E, !elem_of_cons, elem_of_nil in H.
  destruct H as [H | [H | [H | [H | []]]]]; discriminate.
Qed.

Lemma decorated_tolerates_missing_tool_witness :
  let evs := new_events Posix.built_checkout
               (DecoratedCommand_run Posix.platform Posix.no_tool "/p"
                  Posix.built_checkout false Posix.built_checkout).2 in
  (DecoratedCommand_run Posix.platform Posix.no_tool "/p"
     Posix.built_checkout false Posix.built_checkout).1 = Return tt /\
  EvCommandRun ∈ evs.
Proof.
  destruct (decorated_tolerates_missing_tool
              Posix.platform Posix.no_tool "/p" Posix.built_checkout
              Posix.built_checkout) as (Hret & Hran & _).
  - intros c w _. eexists. reflexivity.
  - unfold targets. repeat constructor; vm_compute; reflexivity.
  - intros w'. reflexivity.
  - intros w'. reflexivity.
  - split; [exact Hret | exact Hran].
Defined.

(** C1 as stated fails: the error that is raised again is the one of the
    pre-build step, and it need not say which file is missing. *)
Lemma decorated_error_need_not_name_file :
  ~ (forall (P : Platform) (X : Externals) (HERE : string)
            (import_world : World) (strict : bool) (w w1 : World) (e : exn),
       IS_REPO P HERE import_world = true
       \/ missing_targets P HERE (fs w) <> [] ->
       run_command "jsdeps" (NPM_run P X HERE import_world) w = (Raise e, w1) ->
       strict = true \/ missing_targets P HERE (fs w1) <> [] ->
       exists w2,
         DecoratedCommand_run P X HERE import_world strict w = (Raise e, w2) /\
         (missing_targets P HERE (fs w1) <> [] ->
          exists t, t ∈ missing_targets P HERE (fs w1)
                    /\ Str.contains t (exn_str e) = true)).
Proof.
  intros H.
  destruct (H Posix.platform Posix.no_tool "/p" Posix.checkout false
              Posix.checkout
              (run_command "jsdeps"
                 (NPM_run Posix.platform Posix.no_tool "/p" Posix.checkout)
                 Posix.checkout).2
              (Exn FileNotFoundError
                 "[Errno 2] No such file or directory: 'npm'"))
    as (w2 & _ & Hnames).
  - left. vm_compute. reflexivity.
  - vm_compute. reflexivity.
  - right. vm_compute. discriminate.
  - assert (E : missing_targets Posix.platform "/p"
                  (fs (run_command "jsdeps"
                         (NPM_run Posix.platform Posix.no_tool "/p"
                            Posix.checkout) Posix.checkout).2)
                = ["/p/higlass/static/extension.js";
                   "/p/higlass/static/index.js"]) by (vm_compute; reflexivity).
    rewrite E in Hnames. destruct Hnames as (t & Ht & Hc); [discriminate |].
    rewrite !elem_of_cons, elem_of_nil in Ht.
    destruct Ht as [-> | [-> | []]]; vm_compute in Hc; discriminate.
Qed.

(** C2.  A run in a checkout with a working tool: the build subprocess is
    started without an [env] argument, so its search path is the one of the
    parent process and not [NPM_PATH], the path with the [.bin] directory
    of the tool in front that the script computes. *)
Theorem NPM_run_build_child_search_path :
  let w' := (NPM_run Posix.platform Posix.working "/p" Posix.checkout
               Posix.checkout).2 in
  EvSpawn (build_call Posix.platform "/p") ∈ new_events Posix.checkout w' /\
  call_env (build_call Posix.platform "/p") = None /\
  child_environ (build_call Posix.platform "/p") w' !! "PATH"
  = Some "/usr/bin" /\
  NPM_PATH Posix.platform "/p" Posix.checkout
  = "/p/js/node_modules/.bin:/usr/bin".
Proof.
  cbv zeta. split; [| split; [| split]].
  - assert (E : new_events Posix.checkout
                  (NPM_run Posix.platform Posix.working "/p" Posix.checkout
                     Posix.checkout).2
                = [EvSpawn (version_call Posix.platform);
                   EvSpawn (version_call Posix.platform);
                   EvLog INFO (Plain
                     ("Installing build dependencies with npm.  "
                      +:+ "This may take a while..."));
                   EvSpawn (install_call Posix.platform "/p");
                   EvUtime "/p/js/node_modules";
                   EvSpawn (build_call Posix.platform "/p");
                   EvFinalizeBuildPy]) by (vm_compute; reflexivity).
    rewrite E, !elem_of_cons. tauto.
  - reflexivity.
  - vm_compute. reflexivity.
  - vm_compute. reflexivity.
Qed.

(* ===================================================================== *)
(** ** More on the readers *)
(* ===================================================================== *)

Lemma append_nil_r (s : string) : s +:+ "" = s.
Proof. induction s as [|c s IH]; simpl; [reflexivity | now f_equal]. Qed.

Lemma join_split sep (s : string) : Str.join sep (Str.split sep s) = s.
Proof.
  induction s as [|c s IH]; [reflexivity |].
  cbn [Str.split]. destruct (Ascii.eqb_spec c sep) as [-> | Hc].
  - destruct (Str.split sep s) as [|l ls] eqn:E;
      [now apply split_nonempty in E |].
    change (Str.join sep ("" :: l :: ls))
      with ("" +:+ String sep (Str.join sep (l :: ls))).
    now rewrite IH.
  - destruct (Str.split sep s) as [|l ls] eqn:E;
      [now apply split_nonempty in E |].
    destruct ls as [|l' ls].
    + cbn [Str.join] in *. now rewrite IH.
    + change (Str.join sep (String c l :: l' :: ls))
        with (String c (l +:+ String sep (Str.join sep (l' :: ls)))).
      change (Str.join sep (l :: l' :: ls))
        with (l +:+ String sep (Str.join sep (l' :: ls))) in IH.
      now rewrite IH.
Qed.

Lemma split_no_sep sep (s : string) :
  Forall (fun l => Str.has_char sep l = false) (Str.split sep s).
Proof.
  induction s as [|c s IH]; [repeat constructor |].
  cbn [Str.split]. destruct (Ascii.eqb c sep) eqn:Ec.
  - constructor; [reflexivity | exact IH].
  - destruct (Str.split sep s) as [|l ls] eqn:E;
      [now apply split_nonempty in E |].
    inversion IH as [|? ? Hl Hls]; subst. constructor; [| exact Hls].
    cbn [Str.has_char]. now rewrite Ec, Hl.
Qed.

(** The search finds nothing in a last line that does not begin with
    [__version__]. *)
Lemma search_last_line l : forall prev,
  Str.has_char Str.newline l = false ->
  (Re.at_bol prev = true -> Str.startswith "__version__" l = false) ->
  Re.search_from version_re prev l = None.
Proof.
  assert (Hhere : forall prev s,
    (Re.at_bol prev = true -> Str.startswith "__version__" s = false) ->
    Re.match_here version_re false prev EmptyString s = None).
  { intros prev s H. destruct (Re.at_bol prev) eqn:E.
    - apply version_re_needs_name. now apply H.
    - now apply version_re_needs_bol. }
  induction l as [|c l IH]; intros prev Hl Hstart.
  - cbn [Re.search_from]. now rewrite Hhere.
  - cbn [Re.search_from]. rewrite Hhere by exact Hstart.
    cbn [Str.has_char] in Hl. apply orb_false_iff in Hl as [Hc Hl].
    apply IH; [exact Hl |]. cbn [Re.at_bol]. rewrite Hc. discriminate.
Qed.

Lemma search_no_name (ls : list string) : forall prev,
  ls <> [] ->
  Forall (fun l => Str.has_char Str.newline l = false) ls ->
  Forall (fun l => Str.startswith "__version__" l = false) ls ->
  Re.search_from version_re prev (Str.join Str.newline ls) = None.
Proof.
  induction ls as [|l ls IH]; intros prev Hne Hnl Hname; [congruence |].
  inversion Hnl as [|? ? Hl Hls]; subst.
  inversion Hname as [|? ? Hn Hns]; subst.
  destruct ls as [|l' ls].
  - cbn [Str.join]. apply search_last_line; [exact Hl | intros _; exact Hn].
  - change (Str.join Str.newline (l :: l' :: ls))
      with (l +:+ String Str.newline (Str.join Str.newline (l' :: ls))).
    rewrite search_skips_line; [| exact Hl |].
    + apply IH; [discriminate | exact Hls | exact Hns].
    + intros _. now apply startswith_line_break.
Qed.

(** X2.  When no line of the version file begins with [__version__],
    [get_version] raises the [AttributeError] of [.group] on [None]. *)
Theorem get_version_without_assignment
    (read : list string -> outcome string) (text : string) :
  read ["higlass"; "_version.py"] = Return text ->
  Forall (fun l => Str.startswith "__version__" l = false)
         (Str.split Str.newline text) ->
  get_version read = Raise no_group.
Proof.
  intros Hread Hlines. unfold get_version, Re.search. rewrite Hread.
  rewrite <- (join_split Str.newline text).
  rewrite search_no_name; [reflexivity | apply split_nonempty |
                           apply split_no_sep | exact Hlines].
Qed.

Lemma get_version_without_assignment_witness :
  get_version
    (fun _ => Return (" __version__ = '1.0'" +:+ String Str.newline
                        "version = '1.0'"))
  = Raise no_group.
Proof.
  apply (get_version_without_assignment _
           (" __version__ = '1.0'" +:+ String Str.newline "version = '1.0'")).
  - reflexivity.
  - repeat constructor.
Defined.

(** *** What a match of the version pattern looks like *)

Lemma star_inv p k (rec : bool) : forall s prev acc g,
  Re.star p k rec prev acc s = Some g ->
  exists run s',
    s = run +:+ s' /\ Str.all_chars p run = true /\
    k (prev_after prev run) (if rec then acc +:+ run else acc) s' = Some g.
Proof.
  assert (Hstop : forall s prev acc g,
    k prev acc s = Some g ->
    exists run s',
      s = run +:+ s' /\ Str.all_chars p run = true /\
      k (prev_after prev run) (if rec then acc +:+ run else acc) s' = Some g).
  { intros s prev acc g H. exists EmptyString, s.
    split; [reflexivity |]. split; [reflexivity |].
    cbn [prev_after]. rewrite append_nil_r. now destruct rec. }
  induction s as [|c s IH]; intros prev acc g H; cbn [Re.star] in H.
  - now apply Hstop.
  - destruct (p c) eqn:Hc; [| now apply Hstop].
    destruct (Re.star p k rec (Some c) (Re.record rec acc c) s) as [g'|] eqn:E;
      [| now apply Hstop].
    injection H as ->. destruct (IH _ _ _ E) as (run & s' & -> & Hrun & Hk).
    exists (String c run), s'. split; [reflexivity |]. split.
    + cbn [Str.all_chars]. now rewrite Hc, Hrun.
    + cbn [prev_after]. rewrite record_append in Hk. exact Hk.
Qed.

Lemma match_lit_inv l : forall rest prev acc s g,
  Re.match_here (Re.lit l ++ rest) false prev acc s = Some g ->
  exists s', s = l +:+ s' /\
    Re.match_here rest false (prev_after prev l) acc s' = Some g.
Proof.
  induction l as [|c l IH]; intros rest prev acc s g H.
  - now exists s.
  - cbn [Re.lit app Re.match_here] in H. destruct s as [|a s]; [discriminate |].
    destruct (Ascii.eqb_spec a c) as [-> | Hc]; [| discriminate].
    destruct (IH _ _ _ _ _ H) as (s' & -> & Hm). now exists s'.
Qed.

Lemma search_inv items : forall s prev g,
  Re.search_from items prev s = Some g ->
  exists pre s', s = pre +:+ s' /\
    Re.match_here items false (prev_after prev pre) EmptyString s' = Some g.
Proof.
  induction s as [|c s IH]; intros prev g H; cbn [Re.search_from] in H.
  - destruct (Re.match_here items false prev "" "") as [g'|] eqn:E;
      [| discriminate].
    injection H as ->. now exists EmptyString, EmptyString.
  - destruct (Re.match_here items false prev "" (String c s)) as [g'|] eqn:E.
    + injection H as ->. now exists EmptyString, (String c s).
    + destruct (IH _ _ H) as (pre & s' & -> & Hm).
      now exists (String c pre), s'.
Qed.

(** X1.  Whatever [get_version] returns was found in the file: at the
    start of a line there is [__version__], white space, [=], white space, a
    quote character, the returned text, which holds no quote character, and a
    quote character. *)
Theorem get_version_sound
    (read : list string -> outcome string) (version : string) :
  get_version read = Return version ->
  exists text pre ws1 ws2 q1 q2 rest,
    read ["higlass"; "_version.py"] = Return text /\
    text = pre +:+ "__version__" +:+ ws1 +:+ "=" +:+ ws2
             +:+ String q1 (version +:+ String q2 rest) /\
    at_line_start pre = true /\
    Str.all_chars Re.is_space ws1 = true /\
    Str.all_chars Re.is_space ws2 = true /\
    is_quote q1 = true /\ is_quote q2 = true /\
    Str.all_chars (fun c => negb (is_quote c)) version = true.
Proof.
  unfold get_version, Re.search. intros H.
  destruct (read ["higlass"; "_version.py"]) as [text | e]; [| discriminate].
  destruct (Re.search_from version_re None text) as [g|] eqn:Es;
    [| discriminate].
  injection H as ->.
  destruct (search_inv _ _ _ _ Es) as (pre & s0 & -> & Hm).
  unfold version_re in Hm. cbn [app Re.match_here] in Hm.
  destruct (Re.at_bol (prev_after None pre)) eqn:Hbol; [| discriminate].
  apply match_lit_inv in Hm as (s1 & -> & Hm).
  cbn [Re.match_here] in Hm.
  apply star_inv in Hm as (ws1 & s2 & -> & Hws1 & Hm).
  cbn [Re.match_here] in Hm. destruct s2 as [|a s2]; [discriminate |].
  destruct (Ascii.eqb_spec a "="%char) as [-> | Ha]; [| discriminate].
  cbn [Re.record] in Hm.
  apply star_inv in Hm as (ws2 & s3 & -> & Hws2 & Hm).
  cbn [Re.match_here] in Hm. destruct s3 as [|q1 s3]; [discriminate |].
  destruct (is_quote q1) eqn:Hq1; [| discriminate].
  cbn [Re.record Re.match_here] in Hm.
  apply star_inv in Hm as (body & s4 & -> & Hbody & Hm).
  cbn [Re.match_here String.append] in Hm.
  destruct s4 as [|q2 s4]; [discriminate |].
  destruct (is_quote q2) eqn:Hq2; [| discriminate].
  cbn [Re.record] in Hm. injection Hm as <-.
  exists (pre +:+ "__version__" +:+ ws1 +:+ "=" +:+ ws2
            +:+ String q1 (body +:+ String q2 s4)),
         pre, ws1, ws2, q1, q2, s4.
  repeat split; try assumption; reflexivity.
Qed.

Lemma get_version_sound_witness :
  exists text pre ws1 ws2 q1 q2 rest,
    (fun _ : list string =>
       Return ("# v" +:+ String Str.newline "__version__ = '0.4.2' # x"))
      ["higlass"; "_version.py"] = Return text /\
    text = pre +:+ "__version__" +:+ ws1 +:+ "=" +:+ ws2
             +:+ String q1 ("0.4.2" +:+ String q2 rest) /\
    at_line_start pre = true /\
    Str.all_chars Re.is_space ws1 = true /\
    Str.all_chars Re.is_space ws2 = true /\
    is_quote q1 = true /\ is_quote q2 = true /\
    Str.all_chars (fun c => negb (is_quote c)) "0.4.2" = true.
Proof.
  apply (get_version_sound
           (fun _ => Return ("# v" +:+ String Str.newline
                               "__version__ = '0.4.2' # x")) "0.4.2").
  reflexivity.
Defined.

Lemma filter_kept (l : list string) :
  Forall (fun r => keep_requirement r = true) l ->
  filter (fun req => keep_requirement req = true) l = l.
Proof.
  induction 1 as [|r l Hr Hl IH]; [reflexivity |].
  rewrite filter_cons, decide_True by exact Hr. now rewrite IH.
Qed.

Lemma requirements_of (read : list string -> outcome string) path reqs :
  get_requirements read path = Return reqs ->
  exists content,
    read [path] = Return content /\
    reqs = filter (fun req => keep_requirement req = true)
                  (Str.split Str.newline content).
Proof.
  unfold get_requirements. destruct (read [path]) as [content | e];
    [| discriminate].
  intros [= <-]. now exists content.
Qed.

Lemma keep_requirement_true r :
  keep_requirement r = true -> r <> "" /\ Str.startswith "#" r = false.
Proof.
  unfold keep_requirement. intros H. apply andb_true_iff in H as [H1 H2].
  apply negb_true_iff in H1, H2. split; [| exact H2].
  intros ->. discriminate.
Qed.

(** X3.  Every requirement that [get_requirements] returns is a line of the
    file, is not empty, does not begin with [#] and holds no newline; and
    the requirements come in the order of the lines. *)
Theorem get_requirements_sound
    (read : list string -> outcome string) (path : string)
    (reqs : list string) :
  get_requirements read path = Return reqs ->
  exists content,
    read [path] = Return content /\
    sublist reqs (Str.split Str.newline content) /\
    Forall (fun r => r <> "" /\ Str.startswith "#" r = false
                     /\ Str.has_char Str.newline r = false) reqs.
Proof.
  intros H. destruct (requirements_of _ _ _ H) as (content & Hread & ->).
  exists content. split; [exact Hread |]. split; [apply sublist_filter |].
  apply Forall_forall. intros r Hr. apply list_elem_of_filter in Hr as [Hk Hin].
  destruct (keep_requirement_true _ Hk) as [Hne Hhash].
  split; [exact Hne |]. split; [exact Hhash |].
  pose proof (split_no_sep Str.newline content) as Hnl.
  rewrite Forall_forall in Hnl. now apply Hnl.
Qed.

Lemma get_requirements_sound_witness :
  exists content,
    (fun _ : list string =>
       Return ("numpy" +:+ String Str.newline
                 ("#x" +:+ String Str.newline "pandas"))) ["requirements.txt"]
    = Return content /\
    sublist ["numpy"; "pandas"] (Str.split Str.newline content) /\
    Forall (fun r => r <> "" /\ Str.startswith "#" r = false
                     /\ Str.has_char Str.newline r = false)
           ["numpy"; "pandas"].
Proof.
  apply (get_requirements_sound
           (fun _ => Return ("numpy" +:+ String Str.newline
                               ("#x" +:+ String Str.newline "pandas")))
           "requirements.txt" ["numpy"; "pandas"]).
  reflexivity.
Defined.

(** X4.  Reading back what was read changes nothing: a file that lists the
    requirements [get_requirements] returned, one per line, gives the same
    requirements again. *)
Theorem get_requirements_idempotent
    (read read' : list string -> outcome string) (path path' : string)
    (reqs : list string) :
  get_requirements read path = Return reqs ->
  read' [path'] = Return (Str.join Str.newline reqs) ->
  get_requirements read' path' = Return reqs.
Proof.
  intros H Hread'. destruct (requirements_of _ _ _ H) as (content & _ & E).
  unfold get_requirements. rewrite Hread'. f_equal.
  assert (Hkeep : Forall (fun r => keep_requirement r = true) reqs).
  { subst reqs. apply Forall_forall. intros r Hr.
    now apply list_elem_of_filter in Hr as [Hk _]. }
  assert (Hnl : Forall (fun r => Str.has_char Str.newline r = false) reqs).
  { subst reqs. apply Forall_forall. intros r Hr.
    apply list_elem_of_filter in Hr as [_ Hin].
    pose proof (split_no_sep Str.newline content) as Hall.
    rewrite Forall_forall in Hall. now apply Hall. }
  destruct reqs as [|r reqs]; [reflexivity |].
  rewrite split_join by (discriminate || exact Hnl).
  now apply filter_kept.
Qed.

Lemma get_requirements_idempotent_witness :
  get_requirements
    (fun _ => Return (Str.join Str.newline ["numpy"; "pandas>=0.23"]))
    "frozen.txt"
  = Return ["numpy"; "pandas>=0.23"].
Proof.
  apply (get_requirements_idempotent
           (fun _ => Return (Str.join Str.newline
                               ["numpy"; ""; "# pinned"; "pandas>=0.23"; ""]))
           _ "requirements.txt" "frozen.txt").
  - reflexivity.
  - reflexivity.
Defined.

(* ===================================================================== *)
(** ** More on the asset build and the decorated commands *)
(* ===================================================================== *)

Lemma same_bookkeeping_refl w : same_bookkeeping w w.
Proof. now split. Qed.

Lemma same_bookkeeping_trans w1 w2 w3 :
  same_bookkeeping w1 w2 -> same_bookkeeping w2 w3 -> same_bookkeeping w1 w3.
Proof. intros [H1 H2] [H3 H4]. split; congruence. Qed.

Lemma bookkeeps_ret {A} (a : A) : bookkeeps (ret a).
Proof. intros w. apply same_bookkeeping_refl. Qed.

Lemma bookkeeps_raise {A} e : bookkeeps (@raise A e).
Proof. intros w. apply same_bookkeeping_refl. Qed.

Lemma bookkeeps_bind {A B} (m : Py A) (k : A -> Py B) :
  bookkeeps m -> (forall a, bookkeeps (k a)) -> bookkeeps (bind m k).
Proof.
  intros Hm Hk w. unfold bind. specialize (Hm w).
  destruct (m w) as [[a|e] w1]; simpl in *; [| exact Hm].
  eapply same_bookkeeping_trans; [exact Hm | apply Hk].
Qed.

Lemma bookkeeps_try_except {A} (body handler : Py A) :
  bookkeeps body -> bookkeeps handler -> bookkeeps (try_except body handler).
Proof.
  intros Hb Hh w. unfold try_except. specialize (Hb w).
  destruct (body w) as [[a|e] w1]; simpl in *; [exact Hb |].
  eapply same_bookkeeping_trans; [exact Hb | apply Hh].
Qed.

Lemma bookkeeps_extern ev eff : bookkeeps (extern ev eff).
Proof.
  intros w. unfold extern.
  now destruct (eff (emit ev w)) as [f [e|]].
Qed.

Lemma bookkeeps_log lvl msg : bookkeeps (log lvl msg).
Proof. intros w. now split. Qed.

Lemma bookkeeps_os_path_exists p : bookkeeps (os_path_exists p).
Proof. intros w. now split. Qed.

Lemma bookkeeps_os_utime p : bookkeeps (os_utime p).
Proof. intros w. unfold os_utime. now case_bool_decide. Qed.

Lemma bookkeeps_for_ ts body :
  (forall t, bookkeeps (body t)) -> bookkeeps (for_ ts body).
Proof.
  intros H. induction ts as [|t ts IH]; simpl.
  - apply bookkeeps_ret.
  - apply bookkeeps_bind; [apply H | intros _; exact IH].
Qed.

Lemma bookkeeps_if {A} (b : bool) (m1 m2 : Py A) :
  bookkeeps m1 -> bookkeeps m2 -> bookkeeps (if b then m1 else m2).
Proof. now destruct b. Qed.

Section More.

Variable P : Platform.
Variable X : Externals.
Variable HERE : string.
Variable import_world : World.

#[local] Abbreviation jsdeps' :=
  (run_command "jsdeps" (NPM_run P X HERE import_world)).
#[local] Abbreviation decorated' :=
  (DecoratedCommand_run P X HERE import_world).
#[local] Abbreviation command_and_refresh :=
  (extern EvCommandRun (command_run X) ;; update_package_data X).

Lemma bookkeeps_has_npm : bookkeeps (has_npm P X).
Proof.
  apply bookkeeps_try_except; [| apply bookkeeps_ret].
  apply bookkeeps_bind; [apply bookkeeps_extern | intros; apply bookkeeps_ret].
Qed.

Lemma bookkeeps_NPM_run : bookkeeps (NPM_run P X HERE import_world).
Proof.
  unfold NPM_run.
  apply bookkeeps_bind; [apply bookkeeps_has_npm | intros h].
  apply bookkeeps_bind;
    [apply bookkeeps_if; [apply bookkeeps_log | apply bookkeeps_ret] |].
  intros _. apply bookkeeps_bind;
    [intros w; apply same_bookkeeping_refl | intros env].
  apply bookkeeps_bind.
  { apply bookkeeps_bind; [apply bookkeeps_os_path_exists | intros b].
    apply bookkeeps_bind; [apply bookkeeps_has_npm |
                           intros; apply bookkeeps_ret]. }
  intros install. apply bookkeeps_bind.
  { apply bookkeeps_if; [| apply bookkeeps_ret].
    apply bookkeeps_bind; [apply bookkeeps_log | intros _].
    apply bookkeeps_bind; [apply bookkeeps_extern | intros _].
    apply bookkeeps_os_utime. }
  intros _. apply bookkeeps_bind; [apply bookkeeps_extern | intros _].
  apply bookkeeps_bind; [| intros _; apply bookkeeps_extern].
  apply bookkeeps_for_. intros t.
  apply bookkeeps_bind; [apply bookkeeps_os_path_exists | intros b].
  apply bookkeeps_if; [apply bookkeeps_raise | apply bookkeeps_ret].
Qed.

Lemma keeps_npm_action_has_npm : keeps (npm_action P HERE) (has_npm P X).
Proof.
  apply keeps_try_except; [| apply keeps_ret].
  apply keeps_bind; [| intros; apply keeps_ret].
  apply keeps_extern. now left.
Qed.

(** X5.  [NPM.run] starts no other program than the tool, with one of its
    three command lines, touches no other path than [node_modules], and
    never runs a packaging command. *)
Theorem NPM_run_only_npm_actions (w : World) :
  Forall (npm_action P HERE)
         (new_events w (NPM_run P X HERE import_world w).2).
Proof.
  apply evolves_new_events. revert w.
  change (keeps (npm_action P HERE) (NPM_run P X HERE import_world)).
  unfold NPM_run.
  apply keeps_bind; [apply keeps_npm_action_has_npm | intros h].
  apply keeps_bind;
    [apply keeps_if; [now apply keeps_log | apply keeps_ret] |].
  intros _. apply keeps_bind; [intros w; apply evolves_refl | intros env].
  apply keeps_bind.
  { apply keeps_bind; [apply keeps_os_path_exists | intros b].
    apply keeps_bind; [apply keeps_npm_action_has_npm |
                       intros; apply keeps_ret]. }
  intros install. apply keeps_bind.
  { apply keeps_if; [| apply keeps_ret].
    apply keeps_bind; [now apply keeps_log | intros _].
    apply keeps_bind; [apply keeps_extern; right; now left | intros _].
    now apply keeps_os_utime. }
  intros _. apply keeps_bind; [apply keeps_extern; right; now right | intros _].
  apply keeps_bind; [| intros _; now apply keeps_extern].
  apply keeps_for_. intros t.
  apply keeps_bind; [apply keeps_os_path_exists | intros b].
  apply keeps_if; [apply keeps_raise | apply keeps_ret].
Qed.

(** X6.  [NPM.run] returns only when the build subprocess has returned and
    every target file exists in the file system it left; the last thing it
    then does is the refresh of the package data. *)
Theorem NPM_run_returns_with_targets (w w' : World) :
  NPM_run P X HERE import_world w = (Return tt, w') ->
  exists h wb,
    NPM_run_until_built P X HERE w = (Return h, wb) /\
    Forall (fun t => t ∈ fs wb) (targets P HERE) /\
    update_package_data X wb = (Return tt, w').
Proof.
  rewrite NPM_run_split. unfold bind at 1.
  destruct (NPM_run_until_built P X HERE w) as [[h|e] wb]; [| discriminate].
  unfold bind at 1. rewrite verify_targets.
  fold (missing_targets P HERE (fs wb)).
  destruct (missing_targets P HERE (fs wb)) as [|t ts] eqn:Em; [| discriminate].
  intros H. exists h, wb. split; [reflexivity |].
  split; [now apply missing_none | exact H].
Qed.

(** X7.  Without the tool, [NPM.run] always ends with the
    [FileNotFoundError] of the build subprocess, whether or not the target
    files are already there: it has asked for the version twice, logged that
    the tool is unavailable, tried no installation, and left the file system
    as it was. *)
Theorem NPM_run_fails_without_tool (w : World) :
  tool_unavailable P X ->
  exists msg w',
    NPM_run P X HERE import_world w
    = (Raise (Exn FileNotFoundError msg), w') /\
    fs w' = fs w /\
    new_events w w'
    = [EvSpawn (version_call P); EvLog ERROR npm_unavailable_message;
       EvSpawn (version_call P); EvSpawn (build_call P HERE)].
Proof.
  intros Hun. pose proof (unavailable_status P X Hun) as Hs.
  rewrite NPM_run_split.
  set (w1 := emit (EvSpawn (version_call P)) w).
  set (w2 := emit (EvLog ERROR npm_unavailable_message) w1).
  set (w3 := emit (EvSpawn (version_call P)) w2).
  set (w4 := emit (EvSpawn (build_call P HERE)) w3).
  destruct (Hun (build_call P HERE) w4 eq_refl) as [msg Eb].
  assert (E : NPM_run_until_built P X HERE w
              = (Raise (Exn FileNotFoundError msg), w4)).
  { unfold NPM_run_until_built.
    rewrite (bind_return _ _ _ _ _ (has_npm_status P X false w Hs)).
    fold w1. cbn [negb]. unfold bind at 1, log at 1.
    fold npm_unavailable_message. fold w2.
    unfold should_run_npm_install. rewrite bind_assoc.
    unfold bind at 1, os_path_exists at 1. rewrite bind_assoc.
    rewrite (bind_return _ _ _ _ _ (has_npm_status P X false w2 Hs)).
    fold w3. unfold bind at 1, ret at 1. cbn [andb].
    unfold bind at 1, ret at 1. apply bind_raise.
    rewrite check_call_eval. cbv zeta. fold (build_call P HERE). fold w4.
    now rewrite Eb. }
  exists msg, w4. split; [now apply bind_raise |]. split; [reflexivity |].
  apply new_events_app. subst w4 w3 w2 w1. cbn [trace emit].
  now rewrite <- !app_assoc.
Qed.

(** X14.  [should_run_npm_install] never raises.  It looks for
    [node_modules] first, in the file system as it is before the version
    query, then asks for the version in any case; the answer is [True]
    exactly when the query succeeded and the directory was not there. *)
Theorem should_run_npm_install_returns (w : World) :
  let started := emit (EvSpawn (version_call P)) w in
  let result := subprocess X (version_call P) started in
  should_run_npm_install P X HERE w
  = (Return ((if result.2 is None then true else false)
             && negb (bool_decide (node_modules P HERE ∈ fs w))),
     set_fs result.1 started).
Proof.
  cbv zeta. unfold should_run_npm_install.
  unfold bind at 1, os_path_exists at 1. unfold bind at 1.
  rewrite has_npm_eval.
  now destruct (subprocess X (version_call P)
                  (emit (EvSpawn (version_call P)) w)) as [f [e|]].
Qed.

(** X8.  The asset build runs once per distribution: when [run_command]
    has returned for [jsdeps], the command is marked as run, and from then
    on a decorated command, strict or not, starts no asset build: it is the
    wrapped command and the refresh of the package data, even when a target
    file is missing. *)
Theorem decorated_builds_once (w w1 : World) :
  jsdeps' w = (Return tt, w1) ->
  ("jsdeps" ∈ have_run w1) /\
  forall (strict : bool) (w2 : World),
    have_run w1 ⊆ have_run w2 ->
    IS_REPO P HERE import_world = true
    \/ missing_targets P HERE (fs w2) <> [] ->
    decorated' strict w2 = command_and_refresh w2.
Proof.
  intros H.
  assert (Hin : "jsdeps" ∈ have_run w1).
  { unfold run_command in H. case_bool_decide as Hran.
    - now injection H as <-.
    - unfold bind at 1, log at 1 in H. unfold bind at 1 in H.
      destruct (NPM_run P X HERE import_world _) as [[[]|e] w2];
        [| discriminate].
      injection H as <-. cbn [have_run mark_run].
      apply elem_of_union. left. now apply elem_of_singleton. }
  split; [exact Hin |]. intros strict w2 Hsub Hreach.
  rewrite decorated_reaches_build by exact Hreach.
  unfold bind at 1, try_except_Exception, run_command.
  rewrite bool_decide_eq_true_2; [reflexivity |]. now apply Hsub.
Qed.

(** X9.  A failed asset build is not marked as run, so the next
    decorated command of the distribution tries it again; the process
    environment is untouched as well. *)
Theorem jsdeps_failure_not_recorded (w w1 : World) (e : exn) :
  jsdeps' w = (Raise e, w1) ->
  ("jsdeps" ∉ have_run w1) /\ have_run w1 = have_run w
  /\ environ w1 = environ w.
Proof.
  intros H. unfold run_command in H. case_bool_decide as Hran; [discriminate |].
  unfold bind at 1, log at 1 in H. unfold bind at 1 in H.
  pose proof (bookkeeps_NPM_run
                (emit (EvLog INFO (Plain ("running " +:+ "jsdeps"))) w))
    as [Hrun Henv].
  destruct (NPM_run P X HERE import_world _) as [[[]|e'] w2];
    [discriminate |].
  injection H as -> ->. cbn [snd have_run environ emit] in Hrun, Henv.
  split; [now rewrite Hrun |]. split; [exact Hrun | exact Henv].
Qed.

(** X10.  When the asset build returns, whether it ran now or had run
    before, a decorated command, strict or not, goes on with the wrapped
    command and then the refresh of the package data; the wrapper itself
    does not look at the target files again. *)
Theorem decorated_after_build (strict : bool) (w w1 : World) :
  IS_REPO P HERE import_world = true \/ missing_targets P HERE (fs w) <> [] ->
  jsdeps' w = (Return tt, w1) ->
  decorated' strict w = command_and_refresh w1.
Proof.
  intros Hreach Hjs. rewrite decorated_reaches_build by exact Hreach.
  unfold bind at 1, try_except_Exception. now rewrite Hjs.
Qed.

(** X11.  An exception of the asset build that does not derive from
    [Exception], such as [KeyboardInterrupt], leaves a decorated command
    as it is: nothing is logged, whatever the strict flag and the target
    files, and the wrapped command is not run. *)
Theorem decorated_passes_base_exception
    (strict : bool) (w w1 : World) (e : exn) :
  IS_REPO P HERE import_world = true \/ missing_targets P HERE (fs w) <> [] ->
  jsdeps' w = (Raise e, w1) ->
  is_Exception (exn_class e) = false ->
  decorated' strict w = (Raise e, w1).
Proof.
  intros Hreach Hjs He. rewrite decorated_reaches_build by exact Hreach.
  unfold bind at 1, try_except_Exception. now rewrite Hjs, He.
Qed.

(** X12.  A non-strict decorated command tolerates any failure of the
    asset build that derives from [Exception] and leaves every target file
    in place: it logs two warnings, the second with the error, and goes on
    with the wrapped command and the refresh of the package data. *)
Theorem decorated_tolerates_failure (w w1 : World) (e : exn) :
  IS_REPO P HERE import_world = true \/ missing_targets P HERE (fs w) <> [] ->
  jsdeps' w = (Raise e, w1) ->
  is_Exception (exn_class e) = true ->
  missing_targets P HERE (fs w1) = [] ->
  decorated' false w
  = command_and_refresh
      (emit (EvLog WARN (StrOf e))
         (emit (EvLog WARN
                  (Plain "rebuilding js and css failed (not a problem)")) w1)).
Proof.
  intros Hreach Hjs He Hmiss. rewrite decorated_reaches_build by exact Hreach.
  unfold bind at 1, try_except_Exception. rewrite Hjs, He.
  unfold bind at 1. rewrite list_missing.
  fold (missing_targets P HERE (fs w1)). rewrite Hmiss. reflexivity.
Qed.

(** X13.  A strict decorated command, which is what [sdist] is, cannot be
    run from a git checkout without the tool: unless the asset build has
    already run for the distribution, the run ends with the
    [FileNotFoundError] of the build subprocess, even when both target
    files exist; the wrapped command is not run and the file system is as
    before. *)
Theorem strict_command_needs_tool (w : World) :
  tool_unavailable P X ->
  IS_REPO P HERE import_world = true ->
  "jsdeps" ∉ have_run w ->
  exists msg w',
    decorated' true w = (Raise (Exn FileNotFoundError msg), w') /\
    fs w' = fs w /\
    EvCommandRun ∉ new_events w w'.
Proof.
  intros Hun Hrepo Hran.
  destruct (NPM_run_without_tool P X HERE import_world
              (emit (EvLog INFO (Plain ("running " +:+ "jsdeps"))) w) Hun)
    as (msg & w1 & E1 & Hfs & _).
  assert (Hjs : jsdeps' w = (Raise (Exn FileNotFoundError msg), w1)).
  { unfold run_command. rewrite bool_decide_eq_false_2 by exact Hran.
    unfold bind at 1, log at 1. now apply bind_raise. }
  exists msg, (after_failed_build P HERE (Exn FileNotFoundError msg) w1).
  split; [apply decorated_propagates; [now left | exact Hjs | now left] |].
  split.
  - unfold after_failed_build. cbn [is_Exception exn_class].
    now destruct (missing_targets P HERE (fs w1)).
  - assert (Hev : evolves build_action w
                    (after_failed_build P HERE (Exn FileNotFoundError msg) w1)).
    { eapply evolves_trans; [| apply evolves_after_failed_build].
      pose proof (keeps_run_command "jsdeps" _
                    (keeps_NPM_run P X HERE import_world) w) as H.
      now rewrite Hjs in H. }
    apply evolves_new_events in Hev. intros Hin.
    rewrite Forall_forall in Hev. exact (Hev _ Hin).
Qed.


End More.

Lemma NPM_run_returns_with_targets_witness :
  exists h wb,
    NPM_run_until_built Posix.platform Posix.working "/p" Posix.checkout
    = (Return h, wb) /\
    Forall (fun t => t ∈ fs wb) (targets Posix.platform "/p") /\
    update_package_data Posix.working wb
    = (Return tt,
       (NPM_run Posix.platform Posix.working "/p" Posix.checkout
          Posix.checkout).2).
Proof.
  apply (NPM_run_returns_with_targets
           Posix.platform Posix.working "/p" Posix.checkout Posix.checkout).
  vm_compute. reflexivity.
Defined.

Lemma NPM_run_fails_without_tool_witness :
  exists msg w',
    NPM_run Posix.platform Posix.no_tool "/p" Posix.built_checkout
      Posix.built_checkout
    = (Raise (Exn FileNotFoundError msg), w') /\
    fs w' = fs Posix.built_checkout /\
    new_events Posix.built_checkout w'
    = [EvSpawn (version_call Posix.platform);
       EvLog ERROR npm_unavailable_message;
       EvSpawn (version_call Posix.platform);
       EvSpawn (build_call Posix.platform "/p")].
Proof.
  apply (NPM_run_fails_without_tool
           Posix.platform Posix.no_tool "/p" Posix.built_checkout
           Posix.built_checkout).
  intros c w _. eexists. reflexivity.
Defined.

Lemma decorated_builds_once_witness :
  let w1 := (run_command "jsdeps"
               (NPM_run Posix.platform Posix.working "/p" Posix.checkout)
               Posix.checkout).2 in
  ("jsdeps" ∈ have_run w1) /\
  forall (strict : bool) (w2 : World),
    have_run w1 ⊆ have_run w2 ->
    IS_REPO Posix.platform "/p" Posix.checkout = true
    \/ missing_targets Posix.platform "/p" (fs w2) <> [] ->
    DecoratedCommand_run Posix.platform Posix.working "/p" Posix.checkout
      strict w2
    = (extern EvCommandRun (command_run Posix.working) ;;
       update_package_data Posix.working) w2.
Proof.
  apply (decorated_builds_once
           Posix.platform Posix.working "/p" Posix.checkout Posix.checkout).
  vm_compute. reflexivity.
Defined.

Lemma jsdeps_failure_not_recorded_witness :
  let w1 := (run_command "jsdeps"
               (NPM_run Posix.platform Posix.no_tool "/p" Posix.checkout)
               Posix.checkout).2 in
  ("jsdeps" ∉ have_run w1) /\ have_run w1 = have_run Posix.checkout
  /\ environ w1 = environ Posix.checkout.
Proof.
  apply (jsdeps_failure_not_recorded
           Posix.platform Posix.no_tool "/p" Posix.checkout Posix.checkout _
           (Exn FileNotFoundError
              "[Errno 2] No such file or directory: 'npm'")).
  vm_compute. reflexivity.
Defined.

Lemma decorated_after_build_witness :
  DecoratedCommand_run Posix.platform Posix.no_tool "/p"
    Cases.cleaned_after_build true Cases.cleaned_after_build
  = (extern EvCommandRun (command_run Posix.no_tool) ;;
     update_package_data Posix.no_tool) Cases.cleaned_after_build.
Proof.
  apply (decorated_after_build
           Posix.platform Posix.no_tool "/p" Cases.cleaned_after_build true
           Cases.cleaned_after_build Cases.cleaned_after_build).
  - left. vm_compute. reflexivity.
  - vm_compute. reflexivity.
Defined.

Lemma decorated_passes_base_exception_witness :
  DecoratedCommand_run Posix.platform Cases.interrupted_build "/p"
    Posix.built_checkout false Posix.built_checkout
  = (Raise (Exn KeyboardInterrupt ""),
     (run_command "jsdeps"
        (NPM_run Posix.platform Cases.interrupted_build "/p"
           Posix.built_checkout) Posix.built_checkout).2).
Proof.
  apply (decorated_passes_base_exception
           Posix.platform Cases.interrupted_build "/p" Posix.built_checkout
           false Posix.built_checkout).
  - left. vm_compute. reflexivity.
  - vm_compute. reflexivity.
  - reflexivity.
Defined.

Lemma decorated_tolerates_failure_witness :
  let e := Exn CalledProcessError
    "Command '['npm', 'run', 'build']' returned non-zero exit status 2." in
  let w1 := (run_command "jsdeps"
               (NPM_run Posix.platform Cases.failing_build "/p"
                  Posix.built_checkout) Posix.built_checkout).2 in
  DecoratedCommand_run Posix.platform Cases.failing_build "/p"
    Posix.built_checkout false Posix.built_checkout
  = (extern EvCommandRun (command_run Cases.failing_build) ;;
     update_package_data Cases.failing_build)
      (emit (EvLog WARN (StrOf e))
         (emit (EvLog WARN
                  (Plain "rebuilding js and css failed (not a problem)")) w1)).
Proof.
  apply (decorated_tolerates_failure
           Posix.platform Cases.failing_build "/p" Posix.built_checkout
           Posix.built_checkout).
  - left. vm_compute. reflexivity.
  - vm_compute. reflexivity.
  - reflexivity.
  - vm_compute. reflexivity.
Defined.

Lemma strict_command_needs_tool_witness :
  exists msg w',
    DecoratedCommand_run Posix.platform Posix.no_tool "/p"
      Posix.built_checkout true Posix.built_checkout
    = (Raise (Exn FileNotFoundError msg), w') /\
    fs w' = fs Posix.built_checkout /\
    EvCommandRun ∉ new_events Posix.built_checkout w'.
Proof.
  apply (strict_command_needs_tool
           Posix.platform Posix.no_tool "/p" Posix.built_checkout
           Posix.built_checkout).
  - intros c w _. eexists. reflexivity.
  - vm_compute. reflexivity.
  - vm_compute. intros H. inversion H.
Defined.

